(** * sex_places.py: nearest sex-related place around a company

    A shallow embedding of [src/sex_places.py] and the properties of its
    resolver ([SexPlacesNearBy.get_closest]), its response parsers
    ([parse], [load_details]), the CSV writer ([write_to_csv]) and the
    dataset locator ([find_newest_file]).

    Modelling choices, in one place:
    - Python objects are values of [pyval]; a [dict] with string keys is a
      [gmap string pyval].
    - A Python [float] is [pyfloat]: NaN, an infinity, or a finite value
      carried as a rational.  Only comparisons, the zero test and the NaN
      test are used on floats, so no rounding is involved.
    - [str] is [string]; [str.lower], [re] digit classes and the date
      pattern are modelled on ASCII.
    - [print], [requests.get] and the output file are effects on a [world]
      threaded through the monad [M]; an uncaught Python exception is
      [Raise].
    - What the script imports and does not define, the builtin [float] on
      strings, [geopy.distance.vincenty], the remote API, [config.ini] and
      the directory on disk, are parameters. *)

From Stdlib Require Import ZArith QArith Qabs Lqa String Ascii List Sorted.
From Stdlib Require Import OrderedTypeEx.
From stdpp Require Import gmap strings list fin_maps sorting.

Set Warnings "-register-all,-clear-no-such-hyp".

Local Open Scope string_scope.
Local Open Scope list_scope.

(** ** Python values *)

Inductive pyfloat :=
| FNan
| FInf (negative : bool)
| FFin (q : Q).

Inductive pyval :=
| VNone
| VBool (b : bool)
| VInt (z : Z)
| VFloat (f : pyfloat)
| VStr (s : string)
| VList (l : list pyval)
| VDict (d : gmap string pyval).

Inductive exn :=
| ValueError
| TypeError
| KeyError
| IndexError
| AttributeError
| OverflowError
| ConfigError        (* configparser.NoSectionError / NoOptionError *)
| RequestException.  (* requests.exceptions.RequestException *)

Inductive result (A : Type) :=
| Ok (a : A)
| Raise (e : exn).
Arguments Ok {A} a.
Arguments Raise {A} e.

Definition rbind {A B} (r : result A) (k : A → result B) : result B :=
  match r with
  | Ok a => k a
  | Raise e => Raise e
  end.

(** *** Floats *)

Definition float_isnan (f : pyfloat) : bool :=
  match f with FNan => true | _ => false end.

(** [a < b] on floats: every comparison with NaN is false. *)
Definition float_ltb (a b : pyfloat) : bool :=
  match a, b with
  | FNan, _ | _, FNan => false
  | FInf true, FInf true => false
  | FInf true, _ => true
  | _, FInf true => false
  | FInf false, _ => false
  | _, FInf false => true
  | FFin x, FFin y => match Qcompare x y with Lt => true | _ => false end
  end.

(** [a <= b] on floats. *)
Definition float_leb (a b : pyfloat) : bool :=
  match a, b with
  | FNan, _ | _, FNan => false
  | FInf true, _ => true
  | _, FInf true => false
  | _, FInf false => true
  | FInf false, _ => false
  | FFin x, FFin y => match Qcompare x y with Gt => false | _ => true end
  end.

Definition float_is_zero (f : pyfloat) : bool :=
  match f with
  | FFin q => (Qnum q =? 0)%Z
  | _ => false
  end.

Definition float_is_finite (f : pyfloat) : bool :=
  match f with FFin _ => true | _ => false end.

Definition float_of_Z (z : Z) : pyfloat := FFin (inject_Z z).

(** Integers of magnitude at least [2^1024 - 2^970] do not fit a double. *)
Definition float_overflow_bound : Z := 2 ^ 1024 - 2 ^ 970.

(** *** Truth value of an object, as [bool(x)] and [if x] compute it. *)
Definition truthy (v : pyval) : bool :=
  match v with
  | VNone => false
  | VBool b => b
  | VInt z => negb (z =? 0)%Z
  | VFloat f => negb (float_is_zero f)
  | VStr s => negb (String.eqb s "")
  | VList l => match l with [] => false | _ => true end
  | VDict d => negb (bool_decide (d = ∅))
  end.

(** [d.get(k)] and [d.get(k, default)]. *)
Definition dict_get (d : gmap string pyval) (k : string) : pyval :=
  default VNone (d !! k).

Definition dict_get_default (d : gmap string pyval) (k : string) (dflt : pyval) : pyval :=
  default dflt (d !! k).

(** [d[k]] *)
Definition dict_item (d : gmap string pyval) (k : string) : result pyval :=
  match d !! k with
  | Some v => Ok v
  | None => Raise KeyError
  end.

(** [x == 'literal'] *)
Definition eq_str (v : pyval) (s : string) : bool :=
  match v with
  | VStr t => String.eqb t s
  | _ => false
  end.

(** ** Strings *)

Definition is_digit (c : ascii) : bool :=
  let n := nat_of_ascii c in (48 <=? n)%nat && (n <=? 57)%nat.

Definition lower_ascii (c : ascii) : ascii :=
  let n := nat_of_ascii c in
  if (65 <=? n)%nat && (n <=? 90)%nat then ascii_of_nat (n + 32) else c.

(** [s.lower()] *)
Fixpoint lower (s : string) : string :=
  match s with
  | EmptyString => EmptyString
  | String c r => String (lower_ascii c) (lower r)
  end.

(** [needle in hay] on strings. *)
Fixpoint str_contains (needle hay : string) : bool :=
  String.prefix needle hay ||
  match hay with
  | EmptyString => false
  | String _ r => str_contains needle r
  end.

(** [re.sub(r'\D', '', s)]: keep the digits. *)
Fixpoint digits_only (s : string) : string :=
  match s with
  | EmptyString => EmptyString
  | String c r => if is_digit c then String c (digits_only r) else digits_only r
  end.

(** ** The world: standard output, the network and the files *)

(** A printed line is kept as its template and the values formatted in. *)
Inductive line :=
| NoGeolocation (name cnpj : pyval)
    (* 'No geolocation information for company: {} ({})' *)
| LookingFor (keyword : string) (name cnpj : pyval)
    (* 'Looking for a {keyword} near {name} ({cnpj})…' *)
| StatusError (status error : pyval)
    (* '{}: {}' *)
| ApiStatus (status : pyval)
    (* 'Google Places API Status: {}' *)
| FoundSomething (kiss : bool) (distance name : pyval)
    (* '{}Found something interesting {:.2f}m away from {}…' *)
| Writing (place : option (gmap string pyval)).
    (* 'Writing {}' *)

(** A value of the query string before [urlencode]. *)
Inductive qparam :=
| Plain (v : pyval)
| LatLon (latitude longitude : pyval).   (* '{},{}'.format(latitude, longitude) *)

(** The URL of a request, by its parts. *)
Record request := {
  base : string;
  endpoint : string;
  format : string;
  query : list (string * qparam)
}.

(** What [requests.get] hands back: the URL, as the pairs of its query
    string, and the body, [None] when it is not JSON. *)
Record response := {
  url : list (string * string);
  body : option pyval
}.

Inductive csvrow :=
| HeaderRow (names : list string)
| DataRow (cells : list pyval).

Record world := {
  stdout : list line;
  requests : list request;
  files : gmap string (list csvrow)
}.

Definition empty_world : world :=
  {| stdout := []; requests := []; files := ∅ |}.

(** ** The monad of the script: state and exceptions *)

Definition M (A : Type) : Type := world → result A * world.

Definition ret {A} (a : A) : M A := λ w, (Ok a, w).

Definition bind {A B} (m : M A) (k : A → M B) : M B :=
  λ w, match m w with
       | (Ok a, w') => k a w'
       | (Raise e, w') => (Raise e, w')
       end.

Definition lift {A} (r : result A) : M A := λ w, (r, w).

Definition raise {A} (e : exn) : M A := λ w, (Raise e, w).

Declare Scope py_scope.
Delimit Scope py_scope with py.
Notation "'let!' x ':=' m 'in' k" := (bind m (λ x, k))
  (at level 10, x name, m at level 100, k at level 200) : py_scope.
Notation "'run!' m 'in' k" := (bind m (λ _, k))
  (at level 10, m at level 100, k at level 200) : py_scope.
Notation "'let?' x ':=' r 'in' k" := (rbind r (λ x, k))
  (at level 10, x name, r at level 100, k at level 200) : py_scope.
Local Open Scope py_scope.

Definition print (l : line) : M unit :=
  λ w, (Ok tt, {| stdout := stdout w ++ [l]; requests := requests w; files := files w |}).

Definition record_request (r : request) : M unit :=
  λ w, (Ok tt, {| stdout := stdout w; requests := requests w ++ [r]; files := files w |}).

(** [lzma.open(path, 'at')] followed by the rows written: the file is
    created when missing. *)
Definition append_rows (path : string) (rows : list csvrow) : M unit :=
  λ w, (Ok tt, {| stdout := stdout w; requests := requests w;
                  files := <[path := default [] (files w !! path) ++ rows]> (files w) |}).

(** ** Builtins on values *)

(** [v.get(k, default)]: only a dict has [get]. *)
Definition py_get (v : pyval) (k : string) (dflt : pyval) : result pyval :=
  match v with
  | VDict d => Ok (dict_get_default d k dflt)
  | _ => Raise AttributeError
  end.

(** [v[0]].  The keys of a JSON object are strings, so [0] is never one. *)
Definition subscript0 (v : pyval) : result pyval :=
  match v with
  | VList (x :: _) => Ok x
  | VList [] => Raise IndexError
  | VStr (String c _) => Ok (VStr (String c EmptyString))
  | VStr EmptyString => Raise IndexError
  | VDict _ => Raise KeyError
  | VNone | VBool _ | VInt _ | VFloat _ => Raise TypeError
  end.

(** The first result of an 'OK' body, down to its two coordinates. *)
Definition first_result_at (d place : gmap string pyval) (lat lng : pyval) : Prop :=
  ∃ rest geometry location,
    d !! "results" = Some (VList (VDict place :: rest))
    ∧ place !! "geometry" = Some (VDict geometry)
    ∧ geometry !! "location" = Some (VDict location)
    ∧ dict_get location "lat" = lat
    ∧ dict_get location "lng" = lng.

(** [v.lower()]: only a string has [lower]. *)
Definition py_lower (v : pyval) : result string :=
  match v with
  | VStr s => Ok (lower s)
  | _ => Raise AttributeError
  end.

(** The number a value stands for in a comparison, when it is one. *)
Definition as_number (v : pyval) : option pyfloat :=
  match v with
  | VFloat f => Some f
  | VInt z => Some (float_of_Z z)
  | VBool b => Some (float_of_Z (if b then 1 else 0))
  | _ => None
  end.

(** [a < b].  Numbers compare by value and strings by code point; the other
    pairs that reach this script's comparisons are unordered. *)
Definition py_lt (a b : pyval) : result bool :=
  match as_number a, as_number b with
  | Some x, Some y => Ok (float_ltb x y)
  | _, _ =>
      match a, b with
      | VStr s, VStr t => Ok (String.ltb s t)
      | _, _ => Raise TypeError
      end
  end.

(** [re.sub(r'\D', '', v)]: the subject has to be a string. *)
Definition re_sub_non_digits (v : pyval) : result pyval :=
  match v with
  | VStr s => Ok (VStr (digits_only s))
  | _ => Raise TypeError
  end.

(** [sorted(l, key=key)]: the keys are computed first, then the items are
    ordered by [<] on the keys alone, equal keys keeping their order.  An
    item [x] that came first is placed in the sorted rest after the items
    whose key is smaller than its own, and before the others. *)
Section Sorted.
Context {A : Type}.

Fixpoint insert_by (x : pyval * A) (l : list (pyval * A)) : result (list (pyval * A)) :=
  match l with
  | [] => Ok [x]
  | y :: r =>
      let? before := py_lt (fst y) (fst x) in
      if before then
        let? r' := insert_by x r in Ok (y :: r')
      else Ok (x :: y :: r)
  end.

Fixpoint sort_keyed (l : list (pyval * A)) : result (list (pyval * A)) :=
  match l with
  | [] => Ok []
  | x :: r => let? r' := sort_keyed r in insert_by x r'
  end.

Fixpoint keyed (key : A → result pyval) (l : list A) : result (list (pyval * A)) :=
  match l with
  | [] => Ok []
  | x :: r =>
      let? k := key x in
      let? r' := keyed key r in
      Ok ((k, x) :: r')
  end.

Definition sorted (key : A → result pyval) (l : list A) : result (list A) :=
  let? ks := keyed key l in
  let? s := sort_keyed ks in
  Ok (map snd s).

(** A key that is a float other than NaN. *)
Definition float_key (x : pyval * A) : Prop :=
  ∃ m, fst x = VFloat m ∧ float_isnan m = false.

(** The order [sorted] leaves such keys in. *)
Definition key_le (x y : pyval * A) : Prop :=
  ∃ m n, fst x = VFloat m ∧ fst y = VFloat n ∧ float_leb m n = true.
End Sorted.

(** ** Constants of the script *)

Definition DATA_DIR : string := "data".

(** [os.path.join(DATA_DIR, f)] for a relative [f]. *)
Definition path_join (dir f : string) : string := dir +:+ "/" +:+ f.

(** [get_name]: the trade name when there is one, else the legal name. *)
Definition get_name (company : gmap string pyval) : pyval :=
  let trade_name := dict_get company "trade_name" in
  if truthy trade_name then trade_name else dict_get company "name".

(** ** class SexPlacesNearBy *)

Module SexPlacesNearBy.

Definition BASE_URL : string := "https://maps.googleapis.com/maps/api/place/".

Definition KEYWORDS : list string :=
[ "acompanhantes";
  "adult entertainment club";
  "adult entertainment store";
  "gay sauna";
  "massagem";
  "modeling agency";
  "motel";
  "night club";
  "sex club";
  "sex shop";
  "strip club";
  "swinger clubs" ].

(** The attributes [__init__] sets. *)
Record self := {
company : gmap string pyval;
key : string;
latitude : pyval;
longitude : pyval
}.

Section Class.
(** [float(s)] on a string: the number read, or nothing ([ValueError]). *)
Variable float_of_string : string → option pyfloat.
(** [vincenty(a, b).meters], which may raise. *)
Variable vincenty : pyval * pyval → pyfloat * pyfloat → result pyfloat.
(** The remote API: the response to a GET, or nothing when the transport
    fails. *)
Variable http : request → option response.
(** [config.ini], by section and key. *)
Variable settings : gmap (string * string) string.

(** [float(v)] *)
Definition py_float (v : pyval) : result pyfloat :=
  match v with
  | VFloat f => Ok f
  | VInt z =>
      if (Z.abs z <? float_overflow_bound)%Z then Ok (float_of_Z z)
      else Raise OverflowError
  | VBool b => Ok (float_of_Z (if b then 1 else 0))
  | VStr s =>
      match float_of_string s with
      | Some f => Ok f
      | None => Raise ValueError
      end
  | VNone | VList _ | VDict _ => Raise TypeError
  end.

(** [requests.get(url)] *)
Definition requests_get (r : request) : M response :=
  run! record_request r in
  match http r with
  | Some resp => ret resp
  | None => raise RequestException
  end.

(** [response.json()] *)
Definition json (resp : response) : result pyval :=
  match body resp with
  | Some v => Ok v
  | None => Raise ValueError
  end.

(** [settings.get(section, option)] *)
Definition settings_get (section option : string) : result string :=
  match settings !! (section, option) with
  | Some v => Ok v
  | None => Raise ConfigError
  end.

(** [__init__(self, company, key=None)] *)
Definition init (company : gmap string pyval) (key : option string) : result self :=
  let? k := match key with
            | Some k => if String.eqb k "" then settings_get "Google" "APIKey" else Ok k
            | None => settings_get "Google" "APIKey"
            end in
  let? lat := dict_item company "latitude" in
  let? lon := dict_item company "longitude" in
  Ok {| company := company; key := k; latitude := lat; longitude := lon |}.

Definition is_valid_coordinate (coord : pyval) : result bool :=
  match py_float coord with
  | Ok as_float => Ok (if float_isnan as_float then false else true)
  | Raise ValueError => Ok false
  | Raise e => Raise e
  end.

(** A coordinate the validity rule turns down: [float] refuses it with a
    [ValueError], or reads NaN. *)
Definition unparseable_or_nan (coord : pyval) : Prop :=
  py_float coord = Raise ValueError ∨ py_float coord = Ok FNan.

(** [all(map(f, l))]: stops at the first false. *)
Fixpoint all_map (f : pyval → result bool) (l : list pyval) : result bool :=
  match l with
  | [] => Ok true
  | x :: r => let? b := f x in if b then all_map f r else Ok false
  end.

Definition is_valid (s : self) : M bool :=
  let coords := [latitude s; longitude s] in
  let! ok := lift (all_map is_valid_coordinate coords) in
  if negb ok then
    let! cnpj := lift (dict_item (company s) "cnpj") in
    run! print (NoGeolocation (get_name (company s)) cnpj) in
    ret false
  else ret true.

(** [google_places_url(endpoint, query)], with [format='json'].  Without a
    query, [urlencode] is handed the bare pair and refuses it. *)
Definition google_places_url (s : self) (endpoint : string)
    (query : list (string * qparam)) : result request :=
  match query with
  | [] => Raise TypeError
  | _ => Ok {| base := BASE_URL; endpoint := endpoint; format := "json";
               query := query ++ [("key", Plain (VStr (key s)))] |}
  end.

Definition details_url (s : self) (place : pyval) : result request :=
  google_places_url s "details" [("placeid", Plain place)].

Definition nearby_url (s : self) (keyword : string) : result request :=
  google_places_url s "nearbysearch"
    [ ("location", LatLon (latitude s) (longitude s));
      ("keyword", Plain (VStr keyword));
      ("rankby", Plain (VStr "distance")) ].

(** [parse_qs(urlparse(url).query).get(name)]: the values given to [name],
    blank ones dropped. *)
Definition parse_qs_get (u : list (string * string)) (name : string) : list string :=
  map snd (filter (λ p, String.eqb (fst p) name && negb (String.eqb (snd p) "")) u).

(** [keyword_from_url]: [None] when the URL carries no keyword. *)
Definition keyword_from_url (u : list (string * string)) : pyval :=
  match parse_qs_get u "keyword" with
  | v :: _ => VStr v
  | [] => VNone
  end.

(** [get(keyword)]: the message is formatted with the keyword and the
    company's own keys, which must not repeat [keyword]. *)
Definition get (s : self) (keyword : string) : M response :=
  let! name_cnpj := lift (
    match company s !! "keyword" with
    | Some _ => Raise TypeError
    | None =>
        let? name := dict_item (company s) "name" in
        let? cnpj := dict_item (company s) "cnpj" in
        Ok (name, cnpj)
    end) in
  run! print (LookingFor keyword (fst name_cnpj) (snd name_cnpj)) in
  let! u := lift (nearby_url s keyword) in
  requests_get u.

(** [parse(response)]: the place of the first result as a dict, [None]
    when the status is not 'OK'. *)
Definition parse (s : self) (resp : response) : M (option (gmap string pyval)) :=
  let u := url resp in
  let! response := lift (json resp) in
  match response with
  | VDict d =>
      let! status := lift (dict_item d "status") in
      if negb (eq_str status "OK") then
        if bool_decide (is_Some (d !! "error_message")) then
          run! print (StatusError (dict_get d "status") (dict_get d "error")) in
          ret None
        else if negb (eq_str (dict_get d "status") "ZERO_RESULTS") then
          run! print (ApiStatus (dict_get d "status")) in
          ret None
        else ret None
      else
        let! place := lift (subscript0 (dict_get_default d "results" (VList [VDict ∅]))) in
        let! geometry := lift (py_get place "geometry" (VDict ∅)) in
        let! location := lift (py_get geometry "location" (VDict ∅)) in
        let! lat := lift (py_get location "lat" VNone) in
        let! place_latitude := lift (py_float lat) in
        let! lng := lift (py_get location "lng" VNone) in
        let! place_longitude := lift (py_float lng) in
        let! distance := lift (vincenty (latitude s, longitude s)
                                        (place_latitude, place_longitude)) in
        let! place_id := lift (py_get place "place_id" VNone) in
        let! cnpj := lift (re_sub_non_digits (dict_get (company s) "cnpj")) in
        ret (Some (
          <["company_trade_name" := dict_get (company s) "trade_name"]> (
          <["company_name" := dict_get (company s) "name"]> (
          <["cnpj" := cnpj]> (
          <["distance" := VFloat distance]> (
          <["longitude" := VFloat place_longitude]> (
          <["latitude" := VFloat place_latitude]> (
          <["keyword" := keyword_from_url u]> (
          <["id" := place_id]> ∅)))))))))
  | _ => raise TypeError
  end.

(** [load_details(place)]: the place, updated with name, address and
    phone when it has an id and the details come back. *)
Definition load_details (s : self) (place : gmap string pyval) : M (gmap string pyval) :=
  let! distance := lift (dict_item place "distance") in
  let! kiss := lift (py_lt distance (VInt 5)) in
  run! print (FoundSomething kiss distance (get_name (company s))) in
  let place_id := dict_get place "id" in
  if negb (truthy place_id) then ret place
  else
    let! u := lift (details_url s place_id) in
    let! resp := requests_get u in
    let! details := lift (json resp) in
    if negb (truthy details) then ret place
    else
      let! result := lift (py_get details "result" (VDict ∅)) in
      let! name := lift (py_get result "name" (VStr "")) in
      let! address := lift (py_get result "formatted_address" (VStr "")) in
      let! phone := lift (py_get result "formatted_phone_number" (VStr "")) in
      ret (<["phone" := phone]> (<["address" := address]> (<["name" := name]> place))).

Definition load_place (s : self) (keyword : string) : M (option (gmap string pyval)) :=
  let! response := get s keyword in
  parse s response.

(** One search per keyword, in the order of [KEYWORDS]. *)
Fixpoint load_places (s : self) (keywords : list string)
    : M (list (option (gmap string pyval))) :=
  match keywords with
  | [] => ret []
  | k :: r =>
      let! p := load_place s k in
      let! ps := load_places s r in
      ret (p :: ps)
  end.

(** [p and p.get('distance')], taken as a condition. *)
Definition kept (p : option (gmap string pyval)) : bool :=
  match p with
  | Some d => truthy (VDict d) && truthy (dict_get d "distance")
  | None => false
  end.

Fixpoint cleaned (places : list (option (gmap string pyval))) : list (gmap string pyval) :=
  match places with
  | [] => []
  | Some d :: r => if kept (Some d) then d :: cleaned r else cleaned r
  | None :: r => cleaned r
  end.

(** The [for] loop of [get_closest]. *)
Fixpoint first_relevant (s : self) (ordered : list (gmap string pyval))
    : M (option (gmap string pyval)) :=
  match ordered with
  | [] => ret None
  | place :: rest =>
      let! place := load_details s place in
      let! name := lift (py_lower (dict_get_default place "name" (VStr ""))) in
      let! keyword := lift (dict_item place "keyword") in
      if eq_str keyword "motel" && str_contains "hotel" name
      then first_relevant s rest   (* google returns hotels when looking for a motel *)
      else ret (Some place)
  end.

Definition get_closest (s : self) : M (option (gmap string pyval)) :=
  let! valid := is_valid s in
  if negb valid then ret None
  else
    let! places := load_places s KEYWORDS in
    let! ordered := lift (sorted (λ x, dict_item x "distance") (cleaned places)) in
    first_relevant s ordered.

(** *** What the loop decides for one candidate *)

(** The place [load_details] returns for a candidate: the answer of the
    API depends on the request alone, so the world it is asked in does not
    matter. *)
Definition enriched (s : self) (candidate : gmap string pyval) : result (gmap string pyval) :=
  fst (load_details s candidate empty_world).

(** The disambiguation filter of the loop, on the enriched place: a
    'motel' whose name contains 'hotel' is passed over. *)
Definition is_hotel (place : gmap string pyval) : result bool :=
  let? name := py_lower (dict_get_default place "name" (VStr "")) in
  let? keyword := dict_item place "keyword" in
  Ok (eq_str keyword "motel" && str_contains "hotel" name).

(** The distance a candidate was found at. *)
Definition distance_of (candidate : gmap string pyval) : pyfloat :=
  match candidate !! "distance" with
  | Some (VFloat m) => m
  | _ => FNan
  end.
End Class.

End SexPlacesNearBy.

(** ** write_to_csv *)

Definition fieldnames : list string :=
  [ "id"; "keyword"; "latitude"; "longitude"; "distance"; "name";
    "address"; "phone"; "cnpj"; "company_name"; "company_trade_name" ].

(** [csv.DictWriter.writerow]: a key outside the fieldnames is refused, a
    missing one is written as the empty string. *)
Definition writerow (fields : list string) (rowdict : gmap string pyval) : result csvrow :=
  if bool_decide (map_Forall (λ k _, k ∈ fields) rowdict)
  then Ok (DataRow (map (λ k, dict_get_default rowdict k (VStr "")) fields))
  else Raise ValueError.

(** [if place] for the optional dict. *)
Definition place_given (place : option (gmap string pyval)) : bool :=
  match place with
  | Some d => truthy (VDict d)
  | None => false
  end.

Definition write_to_csv (path : string) (place : option (gmap string pyval))
    (kwargs : gmap string pyval) : M unit :=
  run! print (Writing place) in
  let headers := dict_get_default kwargs "headers" (VBool false) in
  if negb (place_given place) && negb (truthy headers) then ret tt
  else
    let header := if truthy headers then [HeaderRow fieldnames] else [] in
    let! row := lift (
      match place with
      | Some d =>
          if truthy (VDict d) then
            let contents := filter (λ kv, kv.1 ∈ fieldnames) d in
            let? r := writerow fieldnames contents in Ok [r]
          else Ok []
      | None => Ok []
      end) in
    append_rows path (header ++ row).

(** ** main *)

Section Driver.
Variable float_of_string : string → option pyfloat.
Variable vincenty : pyval * pyval → pyfloat * pyfloat → result pyfloat.
Variable http : request → option response.
Variable settings : gmap (string * string) string.
(** [date.today().strftime('%Y-%m-%d')] *)
Variable DATE : string.

Definition OUTPUT : string := path_join DATA_DIR (DATE +:+ "-sex-place-distances.xz").

Fixpoint main (companies : list (gmap string pyval)) : M unit :=
  match companies with
  | [] => ret tt
  | company :: rest =>
      let! sex_places := lift (SexPlacesNearBy.init settings company None) in
      let! closest :=
        SexPlacesNearBy.get_closest float_of_string vincenty http sex_places in
      run! write_to_csv OUTPUT closest ∅ in
      main rest
  end.
End Driver.

(** ** find_newest_file *)

(** [date_regex = re.compile('\d{4}-\d{2}-\d{2}')], as the class of each of
    its ten characters. *)
Definition is_hyphen (c : ascii) : bool := Ascii.eqb c "-".

Definition date_regex : list (ascii → bool) :=
  [ is_digit; is_digit; is_digit; is_digit; is_hyphen;
    is_digit; is_digit; is_hyphen; is_digit; is_digit ].

(** The match of a pattern at the start of [s]. *)
Fixpoint match_here (pattern : list (ascii → bool)) (s : string) : option string :=
  match pattern with
  | [] => Some EmptyString
  | p :: pattern' =>
      match s with
      | EmptyString => None
      | String c r =>
          if p c then
            match match_here pattern' r with
            | Some m => Some (String c m)
            | None => None
            end
          else None
      end
  end.

(** [regex.findall(s)]: the matches from left to right, none overlapping;
    [skip] counts the characters still covered by the last match. *)
Fixpoint findall_from (pattern : list (ascii → bool)) (skip : nat) (s : string) : list string :=
  match s with
  | EmptyString => []
  | String _ r =>
      match skip with
      | S k => findall_from pattern k r
      | O =>
          match match_here pattern s with
          | Some m => m :: findall_from pattern (Nat.pred (String.length m)) r
          | None => findall_from pattern 0 r
          end
      end
  end.

Definition findall (pattern : list (ascii → bool)) (s : string) : list string :=
  findall_from pattern 0 s.

(** [l[0] for l in matches if l] *)
Fixpoint first_matches (matches : list (list string)) : list string :=
  match matches with
  | [] => []
  | [] :: r => first_matches r
  | (d :: _) :: r => d :: first_matches r
  end.

(** [sorted(set(l), reverse=True)] on strings. *)
Fixpoint insert_desc (x : string) (l : list string) : list string :=
  match l with
  | [] => [x]
  | y :: r => if String.ltb x y then y :: insert_desc x r else x :: y :: r
  end.

Definition sorted_set_reverse (l : list string) : list string :=
  foldr insert_desc [] (remove_dups l).

Section Locator.
(** [os.listdir(DATA_DIR)] and [os.path.isfile]. *)
Variable listdir : list string.
Variable isfile : string → bool.

Definition dated_path (d name : string) : string :=
  path_join DATA_DIR (d +:+ "-" +:+ name +:+ ".xz").

Fixpoint first_existing (name : string) (dates : list string) : option string :=
  match dates with
  | [] => None
  | d :: r =>
      let filename := dated_path d name in
      if isfile filename then Some filename else first_existing name r
  end.

Definition find_newest_file (name : string) : option string :=
  let matches := map (findall date_regex) listdir in
  let dates := sorted_set_reverse (first_matches matches) in
  first_existing name dates.

(** Every date found in the file names, a file name giving all of its
    matches: the collection the locator is described with. *)
Definition embedded_dates : list string :=
  concat (map (findall date_regex) listdir).

(** The directory lists what it holds: a dated file of [name] that is on
    disk is among the names listed. *)
Definition listing_complete (name : string) : Prop :=
  ∀ d, isfile (dated_path d name) = true → (d +:+ "-" +:+ name +:+ ".xz") ∈ listdir.
End Locator.

(** ** Sample data: a company, and stand-ins for what the script imports *)

Module Sample.

(** [float] on the handful of strings the samples use. *)
Definition float_of_string (s : string) : option pyfloat :=
  if String.eqb (lower s) "nan" then Some FNan
  else if String.eqb (lower s) "inf" then Some (FInf false)
  else if String.eqb (lower s) "-inf" then Some (FInf true)
  else if String.eqb s "0" then Some (FFin 0)
  else None.

(** A stand-in for the geodesic: metres along the meridian, at 111 km a
    degree, between two finite latitudes. *)
Definition vincenty (a : pyval * pyval) (b : pyfloat * pyfloat) : result pyfloat :=
  match fst a, fst b with
  | VFloat (FFin x), FFin y => Ok (FFin (Qabs (y - x) * 111000))
  | _, _ => Raise ValueError
  end.

Definition company : gmap string pyval :=
  <["cnpj" := VStr "12.345.678/0001-90"]> (
  <["name" := VStr "ACME COMERCIO LTDA"]> (
  <["trade_name" := VStr "Acme"]> (
  <["latitude" := VFloat (FFin (-23))]> (
  <["longitude" := VFloat (FFin (-46))]> ∅)))).

Definition settings : gmap (string * string) string :=
  {[ ("Google", "APIKey") := "secret" ]}.

Definition sex_places : SexPlacesNearBy.self :=
  {| SexPlacesNearBy.company := company;
     SexPlacesNearBy.key := "secret";
     SexPlacesNearBy.latitude := VFloat (FFin (-23));
     SexPlacesNearBy.longitude := VFloat (FFin (-46)) |}.

(** The same company with a latitude that is no number. *)
Definition sex_places_no_geo : SexPlacesNearBy.self :=
  {| SexPlacesNearBy.company := <["latitude" := VStr ""]> company;
     SexPlacesNearBy.key := "secret";
     SexPlacesNearBy.latitude := VStr "";
     SexPlacesNearBy.longitude := VFloat (FFin (-46)) |}.

(** The same company with an infinite latitude. *)
Definition sex_places_infinite : SexPlacesNearBy.self :=
  {| SexPlacesNearBy.company := <["latitude" := VFloat (FInf false)]> company;
     SexPlacesNearBy.key := "secret";
     SexPlacesNearBy.latitude := VFloat (FInf false);
     SexPlacesNearBy.longitude := VFloat (FFin (-46)) |}.

(** A search response that is not JSON. *)
Definition not_json : response :=
  {| url := [("location", "-23,-46"); ("keyword", "motel");
             ("rankby", "distance"); ("key", "secret")];
     body := None |}.

(** A search response with no results and an error message. *)
Definition zero_results_with_message : response :=
  {| url := [("location", "-23,-46"); ("keyword", "motel");
             ("rankby", "distance"); ("key", "secret")];
     body := Some (VDict (
       <["status" := VStr "ZERO_RESULTS"]> (
       <["error_message" := VStr "quota"]> (
       <["results" := VList []]> ∅)))) |}.

(** The value a request gives to a parameter of its query string. *)
Definition param (r : request) (name : string) : pyval :=
  match filter (λ p, String.eqb (fst p) name) (query r) with
  | (_, Plain v) :: _ => v
  | _ => VNone
  end.

Definition search_url (keyword : string) : list (string * string) :=
  [ ("location", "-23,-46"); ("keyword", keyword);
    ("rankby", "distance"); ("key", "secret") ].

Definition keyword_of (r : request) : string :=
  match param r "keyword" with VStr k => k | _ => "" end.

Definition zero_results : pyval :=
  VDict (<["status" := VStr "ZERO_RESULTS"]> (<["results" := VList []]> ∅)).

(** A search response with one result: its id and its latitude. *)
Definition one_result (place_id : string) (lat : Q) : pyval :=
  VDict (
    <["status" := VStr "OK"]> (
    <["results" := VList [ VDict (
        <["place_id" := VStr place_id]> (
        <["geometry" := VDict (
            <["location" := VDict (
                <["lat" := VFloat (FFin lat)]> (
                <["lng" := VFloat (FFin (-46))]> ∅)) ]> ∅) ]> ∅)) ] ]> ∅)).

Definition details_of (name : string) : pyval :=
  VDict (
    <["status" := VStr "OK"]> (
    <["result" := VDict (
        <["name" := VStr name]> (
        <["formatted_address" := VStr "Rua Augusta, 1"]> ∅)) ]> ∅)).

(** Every search comes back empty. *)
Definition http_nothing (r : request) : option response :=
  Some {| url := search_url (keyword_of r); body := Some zero_results |}.

(** A hotel 12 m away answers to 'motel', a shop 40 m away to
    'sex shop'; nothing else is found. *)
Definition http_hotel_and_shop (r : request) : option response :=
  if String.eqb (endpoint r) "details" then
    if eq_str (param r "placeid") "hotel-1"
    then Some {| url := []; body := Some (details_of "Grand Hotel Central") |}
    else Some {| url := []; body := Some (details_of "Shop X") |}
  else if String.eqb (keyword_of r) "motel" then
    Some {| url := search_url "motel";
            body := Some (one_result "hotel-1" (-23 + 12 / 111000)) |}
  else if String.eqb (keyword_of r) "sex shop" then
    Some {| url := search_url "sex shop";
            body := Some (one_result "shop-1" (-23 + 40 / 111000)) |}
  else http_nothing r.

(** A sex shop at the very coordinates of the company, nothing else. *)
Definition http_same_spot (r : request) : option response :=
  if String.eqb (endpoint r) "details" then
    Some {| url := []; body := Some (details_of "Shop X") |}
  else if String.eqb (keyword_of r) "sex shop" then
    Some {| url := search_url "sex shop"; body := Some (one_result "shop-1" (-23)) |}
  else http_nothing r.

(** The place [parse] builds for the shop of [http_same_spot]. *)
Definition place_same_spot : gmap string pyval :=
  <["company_trade_name" := VStr "Acme"]> (
  <["company_name" := VStr "ACME COMERCIO LTDA"]> (
  <["cnpj" := VStr "12345678000190"]> (
  <["distance" := VFloat (FFin (Qabs (-23 - -23) * 111000))]> (
  <["longitude" := VFloat (FFin (-46))]> (
  <["latitude" := VFloat (FFin (-23))]> (
  <["keyword" := VStr "sex shop"]> (
  <["id" := VStr "shop-1"]> ∅))))))).

Definition listdir : list string :=
  [ "2023-01-01-companies.xz"; "2023-01-05-companies.xz"; "2023-01-10-other.xz" ].

(** The regular files of the data directory are those listed. *)
Definition isfile (path : string) : bool :=
  bool_decide (path ∈ map (path_join DATA_DIR) listdir).

End Sample.

(** ** What a run leaves behind *)

(** A request the class builds: to the Places API, in JSON, at one of its
    two endpoints, the API key closing the query string. *)
Definition api_request (s : SexPlacesNearBy.self) (r : request) : Prop :=
  base r = SexPlacesNearBy.BASE_URL
  ∧ format r = "json"
  ∧ (endpoint r = "nearbysearch" ∨ endpoint r = "details")
  ∧ last (query r) = Some ("key", Plain (VStr (SexPlacesNearBy.key s))).

(** From [w] to [w'] lines were printed, at most [n] requests were sent,
    each of them satisfying [P], and no file was touched. *)
Definition api_run (P : request → Prop) (n : nat) (w w' : world) : Prop :=
  stdout w `prefix_of` stdout w'
  ∧ files w' = files w
  ∧ ∃ new, requests w' = requests w ++ new ∧ (length new ≤ n)%nat ∧ Forall P new.

(** Whatever the world it starts in, [m] is such a run, and the value it
    returns, when it returns one, satisfies [Q]. *)
Definition runs {A : Type} (P : request → Prop) (n : nat) (Q : A → Prop) (m : M A) : Prop :=
  ∀ w, api_run P n w (snd (m w)) ∧ ∀ a, fst (m w) = Ok a → Q a.

(** From [w] to [w'] only the file at [path] changed, by at most [n] rows
    appended to it, each a data row of eleven cells. *)
Definition appends_rows (path : string) (n : nat) (w w' : world) : Prop :=
  (∀ other, other ≠ path → files w' !! other = files w !! other)
  ∧ ∃ rows, default [] (files w' !! path) = default [] (files w !! path) ++ rows
            ∧ (length rows ≤ n)%nat
            ∧ Forall (λ r, ∃ cells, r = DataRow cells ∧ length cells = 11) rows.

(** The candidates at the distance [m]. *)
Definition at_distance (m : pyfloat) (c : gmap string pyval) : bool :=
  float_leb m (SexPlacesNearBy.distance_of c)
  && float_leb (SexPlacesNearBy.distance_of c) m.

(** * Properties *)

(** Unfolds the monad so that a run of the script computes. *)
Ltac step_monad :=
  unfold bind, ret, lift, raise, print, record_request, append_rows, rbind in *;
  simpl in *.

(** ** write_to_csv *)

Section WriteToCsv.
Implicit Types (d : gmap string pyval) (w : world).

Lemma filter_fieldnames_lookup d k :
  k ∈ fieldnames →
  filter (λ kv : string * pyval, kv.1 ∈ fieldnames) d !! k = d !! k.
Proof.
  intros Hk. destruct (d !! k) as [v|] eqn:E.
  - apply map_lookup_filter_Some. by split.
  - apply map_lookup_filter_None. left. exact E.
Qed.

Lemma writerow_filtered d :
  writerow fieldnames (filter (λ kv : string * pyval, kv.1 ∈ fieldnames) d)
  = Ok (DataRow (map (λ k, default (VStr "") (d !! k)) fieldnames)).
Proof.
  unfold writerow. rewrite bool_decide_eq_true_2.
  - do 2 f_equal. apply map_ext_in. intros k Hk.
    unfold dict_get_default. rewrite filter_fieldnames_lookup; [done|].
    by apply list_elem_of_In.
  - apply map_Forall_lookup. intros k v Hkv.
    apply map_lookup_filter_Some in Hkv. by destruct Hkv.
Qed.

Lemma truthy_dict d : truthy (VDict d) = true ↔ d ≠ ∅.
Proof.
  simpl. destruct (decide (d = ∅)) as [->|Hne].
  - rewrite bool_decide_eq_true_2; [|done]. split; [discriminate|done].
  - rewrite bool_decide_eq_false_2; [|done]. done.
Qed.
End WriteToCsv.





(** ** The places client: parse and load_details *)

Section Client.
Variable float_of_string : string → option pyfloat.
Variable vincenty : pyval * pyval → pyfloat * pyfloat → result pyfloat.
Variable http : request → option response.

Import SexPlacesNearBy.

Local Abbreviation parse := (SexPlacesNearBy.parse float_of_string vincenty).
Local Abbreviation load_details := (SexPlacesNearBy.load_details http).
Local Abbreviation py_float := (SexPlacesNearBy.py_float float_of_string).

Implicit Types (s : self) (w : world) (d : gmap string pyval) (resp : response).

(** The lines [parse] prints for a status that is not 'OK'. *)
Lemma parse_not_ok s resp d status w :
  body resp = Some (VDict d) →
  d !! "status" = Some status →
  eq_str status "OK" = false →
  parse s resp w
  = (Ok None,
     {| stdout := stdout w ++
          (if bool_decide (is_Some (d !! "error_message"))
           then [StatusError status (dict_get d "error")]
           else if eq_str status "ZERO_RESULTS" then [] else [ApiStatus status]);
        requests := requests w;
        files := files w |}).
Proof.
  intros Hbody Hstatus Hok. unfold SexPlacesNearBy.parse, json, dict_item.
  rewrite Hbody. step_monad. rewrite Hstatus, Hok. simpl.
  unfold dict_get. rewrite Hstatus. simpl.
  destruct (bool_decide (is_Some (d !! "error_message"))); [done|].
  destruct (eq_str status "ZERO_RESULTS"); simpl; [|done].
  rewrite app_nil_r. by destruct w.
Qed.

Lemma parse_malformed_json s resp w :
  body resp = None → parse s resp w = (Raise ValueError, w).
Proof.
  intros Hbody. unfold SexPlacesNearBy.parse, json. rewrite Hbody. by step_monad.
Qed.

Lemma parse_not_an_object s resp v w :
  body resp = Some v → (∀ d, v ≠ VDict d) → parse s resp w = (Raise TypeError, w).
Proof.
  intros Hbody Hv. unfold SexPlacesNearBy.parse, json. rewrite Hbody. step_monad.
  destruct v; try done. by destruct (Hv d).
Qed.

Lemma parse_missing_status s resp d w :
  body resp = Some (VDict d) → d !! "status" = None →
  parse s resp w = (Raise KeyError, w).
Proof.
  intros Hbody Hstatus. unfold SexPlacesNearBy.parse, json, dict_item.
  rewrite Hbody. step_monad. by rewrite Hstatus.
Qed.

Lemma parse_no_results s resp d w :
  body resp = Some (VDict d) → d !! "status" = Some (VStr "OK") →
  d !! "results" = Some (VList []) →
  parse s resp w = (Raise IndexError, w).
Proof.
  intros Hbody Hstatus Hresults.
  unfold SexPlacesNearBy.parse, json, dict_item, dict_get_default.
  rewrite Hbody. step_monad. by rewrite Hstatus, Hresults.
Qed.

Lemma parse_ok_steps s resp d place lat lng w :
  body resp = Some (VDict d) → d !! "status" = Some (VStr "OK") →
  first_result_at d place lat lng →
  parse s resp w
  = (let! place_latitude := lift (py_float lat) in
     let! place_longitude := lift (py_float lng) in
     let! distance := lift (vincenty (latitude s, longitude s)
                                     (place_latitude, place_longitude)) in
     let! cnpj := lift (re_sub_non_digits (dict_get (company s) "cnpj")) in
     ret (Some (
       <["company_trade_name" := dict_get (company s) "trade_name"]> (
       <["company_name" := dict_get (company s) "name"]> (
       <["cnpj" := cnpj]> (
       <["distance" := VFloat distance]> (
       <["longitude" := VFloat place_longitude]> (
       <["latitude" := VFloat place_latitude]> (
       <["keyword" := keyword_from_url (url resp)]> (
       <["id" := dict_get place "place_id"]> ∅)))))))))) w.
Proof.
  intros Hbody Hstatus (rest & geometry & location & Hres & Hgeo & Hloc & Hlat & Hlng).
  unfold SexPlacesNearBy.parse, json, dict_item, dict_get_default, dict_get in *.
  rewrite Hbody. step_monad. rewrite Hstatus, Hres. simpl.
  unfold dict_get_default. rewrite Hgeo. simpl.
  unfold dict_get_default. rewrite Hloc. simpl.
  unfold dict_get_default. rewrite Hlat, Hlng.
  destruct (py_float lat); [|done].
  destruct (py_float lng); [|done].
  destruct (vincenty _ _); [|done]. reflexivity.
Qed.


End Client.

(** ** Order on floats and [sorted] *)

Section FloatOrder.
Implicit Types a b c : pyfloat.

Lemma float_ltb_asym a b : float_ltb a b = true → float_ltb b a = false.
Proof.
  destruct a as [|[]|x], b as [|[]|y]; simpl; try done.
  destruct (Qcompare_spec x y), (Qcompare_spec y x); try done; lra.
Qed.

Lemma float_not_ltb_leb a b :
  float_isnan a = false → float_isnan b = false →
  float_ltb b a = false → float_leb a b = true.
Proof.
  destruct a as [|[]|x], b as [|[]|y]; simpl; try done.
  intros _ _. destruct (Qcompare_spec x y), (Qcompare_spec y x); try done; lra.
Qed.

Lemma float_leb_trans a b c :
  float_leb a b = true → float_leb b c = true → float_leb a c = true.
Proof.
  destruct a as [|[]|x], b as [|[]|y], c as [|[]|z]; simpl; try done.
  destruct (Qcompare_spec x y), (Qcompare_spec y z), (Qcompare_spec x z);
    try done; lra.
Qed.

Lemma float_ltb_leb a b : float_ltb a b = true → float_leb a b = true.
Proof.
  destruct a as [|[]|x], b as [|[]|y]; simpl; try done.
  by destruct (Qcompare x y).
Qed.

Lemma float_leb_refl a : float_isnan a = false → float_leb a a = true.
Proof.
  destruct a as [|[]|x]; simpl; try done.
  intros _. destruct (Qcompare_spec x x); try done; lra.
Qed.
End FloatOrder.

Section SortedFacts.
Context {A : Type}.
Implicit Types (x : pyval * A) (l : list (pyval * A)).

Lemma insert_by_sorted x l :
  float_key x → Forall float_key l → StronglySorted key_le l →
  ∃ l', insert_by x l = Ok l' ∧ l' ≡ₚ x :: l ∧ StronglySorted key_le l'.
Proof.
  intros (m & Hx & Hm) Hl Hs. induction l as [|y r IH]; simpl.
  - eexists. split; [done|]. split; [done|]. repeat constructor.
  - apply Forall_cons in Hl as [(n & Hy & Hn) Hr].
    apply StronglySorted_inv in Hs as [Hs Hy_le].
    rewrite Hx, Hy. simpl.
    destruct (float_ltb n m) eqn:Hlt.
    + destruct (IH Hr Hs) as (r' & -> & Hperm & Hs'). simpl.
      eexists. split; [done|]. split.
      * rewrite Hperm. apply perm_swap.
      * constructor; [done|]. rewrite Hperm. constructor; [|done].
        exists n, m. eauto using float_ltb_leb.
    + eexists. split; [done|]. split; [done|].
      assert (Hxy : key_le x y).
      { exists m, n. eauto using float_not_ltb_leb. }
      constructor; [by constructor|]. constructor; [done|].
      eapply Forall_impl; [exact Hy_le|].
      intros z (n' & k & Hn' & Hz & Hle). exists m, k.
      rewrite Hy in Hn'. injection Hn' as <-.
      destruct Hxy as (m' & n'' & Hm' & Hn'' & Hle').
      rewrite Hx in Hm'. injection Hm' as <-.
      rewrite Hy in Hn''. injection Hn'' as <-.
      eauto using float_leb_trans.
Qed.

Lemma sort_keyed_sorted l :
  Forall float_key l →
  ∃ l', sort_keyed l = Ok l' ∧ l' ≡ₚ l ∧ StronglySorted key_le l'.
Proof.
  induction l as [|x r IH]; intros Hl; simpl.
  - eexists. split; [done|]. split; [done|]. constructor.
  - apply Forall_cons in Hl as [Hx Hr].
    destruct (IH Hr) as (r' & -> & Hperm & Hs). simpl.
    destruct (insert_by_sorted x r' Hx) as (l' & -> & Hperm' & Hs'); [|done|].
    + by rewrite Hperm.
    + eexists. split; [done|]. split; [|done]. by rewrite Hperm', Hperm.
Qed.
End SortedFacts.

(** ** The resolver: get_closest *)

Section Resolver.
Variable float_of_string : string → option pyfloat.
Variable vincenty : pyval * pyval → pyfloat * pyfloat → result pyfloat.
Variable http : request → option response.

Import SexPlacesNearBy.

Local Abbreviation py_float := (SexPlacesNearBy.py_float float_of_string).
Local Abbreviation is_valid_coordinate :=
  (SexPlacesNearBy.is_valid_coordinate float_of_string).
Local Abbreviation unparseable_or_nan :=
  (SexPlacesNearBy.unparseable_or_nan float_of_string).
Local Abbreviation is_valid := (SexPlacesNearBy.is_valid float_of_string).
Local Abbreviation get := (SexPlacesNearBy.get http).
Local Abbreviation parse := (SexPlacesNearBy.parse float_of_string vincenty).
Local Abbreviation load_details := (SexPlacesNearBy.load_details http).
Local Abbreviation load_place :=
  (SexPlacesNearBy.load_place float_of_string vincenty http).
Local Abbreviation load_places :=
  (SexPlacesNearBy.load_places float_of_string vincenty http).
Local Abbreviation first_relevant := (SexPlacesNearBy.first_relevant http).
Local Abbreviation enriched := (SexPlacesNearBy.enriched http).
Local Abbreviation get_closest :=
  (SexPlacesNearBy.get_closest float_of_string vincenty http).

Implicit Types (s : self) (w : world) (d : gmap string pyval) (resp : response).

Lemma unparseable_is_invalid (coord : pyval) :
  unparseable_or_nan coord → is_valid_coordinate coord = Ok false.
Proof.
  unfold SexPlacesNearBy.unparseable_or_nan, SexPlacesNearBy.is_valid_coordinate.
  by intros [-> | ->].
Qed.

Lemma is_valid_true s w :
  is_valid_coordinate (latitude s) = Ok true →
  is_valid_coordinate (longitude s) = Ok true →
  is_valid s w = (Ok true, w).
Proof.
  intros Hlat Hlon. unfold SexPlacesNearBy.is_valid. step_monad.
  by rewrite Hlat, Hlon.
Qed.

Lemma is_valid_false s w (cnpj : pyval) :
  unparseable_or_nan (latitude s)
  ∨ (is_valid_coordinate (latitude s) = Ok true ∧ unparseable_or_nan (longitude s)) →
  company s !! "cnpj" = Some cnpj →
  is_valid s w
  = (Ok false, {| stdout := stdout w ++ [NoGeolocation (get_name (company s)) cnpj];
                  requests := requests w;
                  files := files w |}).
Proof.
  intros Hbad Hcnpj. unfold SexPlacesNearBy.is_valid, dict_item. step_monad.
  destruct Hbad as [Hlat | [Hlat Hlon]].
  - rewrite (unparseable_is_invalid _ Hlat). simpl. by rewrite Hcnpj.
  - rewrite Hlat, (unparseable_is_invalid _ Hlon). simpl. by rewrite Hcnpj.
Qed.

(** C2, as the code has it: when [float] refuses the latitude or the
    longitude with a ValueError, or reads NaN from it, the resolver returns
    null, sends no request and prints one line naming the company, by its
    trade name when it has one and by its legal name otherwise, and its
    cnpj.  An infinite coordinate is not turned down. *)
Theorem get_closest_invalid_coordinate s w (cnpj : pyval) :
  unparseable_or_nan (latitude s)
  ∨ (is_valid_coordinate (latitude s) = Ok true ∧ unparseable_or_nan (longitude s)) →
  company s !! "cnpj" = Some cnpj →
  get_closest s w
  = (Ok None, {| stdout := stdout w ++ [NoGeolocation (get_name (company s)) cnpj];
                 requests := requests w;
                 files := files w |})
  ∧ get_name (company s)
    = (if truthy (dict_get (company s) "trade_name")
       then dict_get (company s) "trade_name"
       else dict_get (company s) "name").
Proof.
  intros Hbad Hcnpj. split; [|reflexivity].
  unfold SexPlacesNearBy.get_closest, bind.
  by rewrite (is_valid_false s w cnpj Hbad Hcnpj).
Qed.

(** With valid coordinates the resolver goes on to the searches. *)
Lemma get_closest_valid s w :
  is_valid_coordinate (latitude s) = Ok true →
  is_valid_coordinate (longitude s) = Ok true →
  get_closest s w
  = (let! places := load_places s KEYWORDS in
     let! ordered := lift (sorted (λ x, dict_item x "distance") (cleaned places)) in
     first_relevant s ordered) w.
Proof.
  intros Hlat Hlon. unfold SexPlacesNearBy.get_closest, bind at 1.
  by rewrite (is_valid_true s w Hlat Hlon).
Qed.

Lemma nearby_url_ok s (keyword : string) : ∃ u, nearby_url s keyword = Ok u.
Proof. by eexists. Qed.

Lemma get_response s (keyword : string) (name cnpj : pyval) u resp w :
  company s !! "keyword" = None →
  company s !! "name" = Some name →
  company s !! "cnpj" = Some cnpj →
  nearby_url s keyword = Ok u →
  http u = Some resp →
  get s keyword w
  = (Ok resp, {| stdout := stdout w ++ [LookingFor keyword name cnpj];
                 requests := requests w ++ [u];
                 files := files w |}).
Proof.
  intros Hkw Hname Hcnpj Hu Hhttp.
  unfold SexPlacesNearBy.get, requests_get, dict_item.
  rewrite Hkw, Hname, Hcnpj. step_monad. injection Hu as <-. by rewrite Hhttp.
Qed.

(** A search that comes back with 'ZERO_RESULTS' and no error message. *)
Lemma load_places_zero_results s (name cnpj : pyval) (keywords : list string) w :
  company s !! "keyword" = None →
  company s !! "name" = Some name →
  company s !! "cnpj" = Some cnpj →
  (∀ k u, k ∈ keywords → nearby_url s k = Ok u →
     ∃ resp d, http u = Some resp ∧ body resp = Some (VDict d)
               ∧ d !! "status" = Some (VStr "ZERO_RESULTS")
               ∧ d !! "error_message" = None) →
  ∃ w', load_places s keywords w = (Ok (map (λ _, None) keywords), w')
        ∧ stdout w' = stdout w ++ map (λ k, LookingFor k name cnpj) keywords
        ∧ length (requests w') = length (requests w) + length keywords
        ∧ files w' = files w.
Proof.
  intros Hkw Hname Hcnpj. revert w.
  induction keywords as [|k r IH]; intros w Hall; simpl.
  - exists w. rewrite app_nil_r. repeat split; simpl; try done; lia.
  - destruct (nearby_url_ok s k) as [u Hu].
    destruct (Hall k u) as (resp & d & Hhttp & Hbody & Hstatus & Herr);
      [left|done|].
    destruct (IH {| stdout := stdout w ++ [LookingFor k name cnpj];
                    requests := requests w ++ [u];
                    files := files w |}) as (w' & Hrun & Hout & Hreq & Hfiles).
    { intros k' u' Hk'. apply Hall. by right. }
    exists w'. unfold SexPlacesNearBy.load_place, bind at 1 2.
    rewrite (get_response s k name cnpj u resp w Hkw Hname Hcnpj Hu Hhttp).
    rewrite (parse_not_ok float_of_string vincenty s resp d (VStr "ZERO_RESULTS")
               _ Hbody Hstatus eq_refl).
    rewrite bool_decide_eq_false_2 by (rewrite Herr; by intros [? ?]).
    simpl. rewrite app_nil_r. unfold bind. rewrite Hrun. unfold ret.
    split; [done|]. simpl in *. rewrite Hout, Hreq, Hfiles, length_app. simpl.
    split; [by rewrite <- app_assoc|]. split; [lia|done].
Qed.

(** C4, as the code has it: a status other than 'OK' gives a null result.
    A body carrying an [error_message] is logged as status and error,
    whatever its status, 'ZERO_RESULTS' included; without one,
    'ZERO_RESULTS' prints nothing and any other status prints the status
    line.  When every keyword comes back with 'ZERO_RESULTS' and no error
    message, the resolver returns null and prints its twelve 'Looking for'
    lines only. *)
Theorem parse_status_not_ok :
  (∀ s resp d (status : pyval) w,
     body resp = Some (VDict d) →
     d !! "status" = Some status →
     eq_str status "OK" = false →
     parse s resp w
     = (Ok None,
        {| stdout := stdout w ++
             (if bool_decide (is_Some (d !! "error_message"))
              then [StatusError status (dict_get d "error")]
              else if eq_str status "ZERO_RESULTS" then [] else [ApiStatus status]);
           requests := requests w;
           files := files w |}))
  ∧ (∀ s (name cnpj : pyval) w,
       is_valid_coordinate (latitude s) = Ok true →
       is_valid_coordinate (longitude s) = Ok true →
       company s !! "keyword" = None →
       company s !! "name" = Some name →
       company s !! "cnpj" = Some cnpj →
       (∀ k u, k ∈ KEYWORDS → nearby_url s k = Ok u →
          ∃ resp d, http u = Some resp ∧ body resp = Some (VDict d)
                    ∧ d !! "status" = Some (VStr "ZERO_RESULTS")
                    ∧ d !! "error_message" = None) →
       ∃ w', get_closest s w = (Ok None, w')
             ∧ stdout w' = stdout w ++ map (λ k, LookingFor k name cnpj) KEYWORDS
             ∧ length (requests w') = length (requests w) + 12
             ∧ files w' = files w).
Proof.
  split; [apply parse_not_ok|].
  intros s name cnpj w Hlat Hlon Hkw Hname Hcnpj Hall.
  destruct (load_places_zero_results s name cnpj KEYWORDS w Hkw Hname Hcnpj Hall)
    as (w' & Hrun & Hout & Hreq & Hfiles).
  exists w'. rewrite (get_closest_valid s w Hlat Hlon).
  unfold bind at 1. rewrite Hrun. by step_monad.
Qed.

(** *** The candidates and their order *)

(** A place [parse] returns carries the distance [vincenty] gave. *)
Lemma parse_some_distance s resp w (p : gmap string pyval) w' :
  parse s resp w = (Ok (Some p), w') →
  ∃ m a b, p !! "distance" = Some (VFloat m) ∧ vincenty a b = Ok m.
Proof.
  unfold SexPlacesNearBy.parse. step_monad. intros Hrun.
  repeat (case_match; simplify_eq; try done).
  eexists _, _, _. split; [|eassumption]. by simplify_map_eq.
Qed.

Lemma load_places_distances s (keywords : list string) w
    (places : list (option (gmap string pyval))) w' :
  load_places s keywords w = (Ok places, w') →
  Forall (λ p, ∀ c, p = Some c →
            ∃ m a b, c !! "distance" = Some (VFloat m) ∧ vincenty a b = Ok m) places.
Proof.
  revert w places. induction keywords as [|k r IH]; intros w places; simpl.
  - unfold ret. intros [= <- <-]. constructor.
  - unfold bind at 1. unfold SexPlacesNearBy.load_place at 1. unfold bind at 1.
    destruct (get s k w) as [[resp|e] w1]; [|done].
    destruct (parse s resp w1) as [[p|e] w2] eqn:Hparse; [|done].
    unfold bind at 1.
    destruct (load_places s r w2) as [[ps|e] w3] eqn:Hrest; [|done].
    unfold ret. intros [= <- <-]. constructor; [|by eapply IH].
    intros c ->. by eapply parse_some_distance.
Qed.

Lemma cleaned_subset (places : list (option (gmap string pyval))) (c : gmap string pyval) :
  c ∈ cleaned places → Some c ∈ places ∧ kept (Some c) = true.
Proof.
  induction places as [|[d|] r IH]; simpl.
  - by intros ?%elem_of_nil.
  - destruct (_ && _) eqn:Hk.
    + intros [->|Hin]%elem_of_cons.
      * split; [left|done].
      * destruct (IH Hin). split; [by right|done].
    + intros Hin. destruct (IH Hin). split; [by right|done].
  - intros Hin. destruct (IH Hin). split; [by right|done].
Qed.

(** A candidate whose distance is a float other than NaN. *)
Local Abbreviation measured :=
  (λ c : gmap string pyval,
     ∃ m, c !! "distance" = Some (VFloat m) ∧ float_isnan m = false).

(** A candidate is at most as far as another. *)
Local Abbreviation not_farther :=
  (λ c c' : gmap string pyval, float_leb (distance_of c) (distance_of c') = true).

Lemma keyed_distances (l : list (gmap string pyval)) :
  Forall measured l →
  keyed (λ x, dict_item x "distance") l
  = Ok (map (λ c, (VFloat (distance_of c), c)) l).
Proof.
  induction 1 as [|c r (m & Hm & _) _ IH]; simpl; [done|].
  assert (Hc : dict_item c "distance" = Ok (VFloat (distance_of c))).
  { unfold dict_item, distance_of. by rewrite Hm. }
  rewrite Hc. simpl. by rewrite IH.
Qed.

Lemma sorted_keys_to_items (l : list (pyval * gmap string pyval)) :
  Forall (λ x, fst x = VFloat (distance_of (snd x))) l →
  StronglySorted key_le l →
  StronglySorted not_farther (map snd l).
Proof.
  intros Hl Hs. induction Hs as [|x r Hs IH Hx]; simpl; [constructor|].
  apply Forall_cons in Hl as [Hkx Hr]. constructor; [by apply IH|].
  apply Forall_map. rewrite Forall_forall in Hx, Hr |- *.
  intros y Hy. destruct (Hx y Hy) as (m & n & Hm & Hn & Hle).
  rewrite Hkx in Hm. rewrite (Hr y Hy) in Hn.
  injection Hm as <-. injection Hn as <-. exact Hle.
Qed.

(** On measured candidates [sorted] succeeds, and leaves them in ascending
    order of distance. *)
Lemma sorted_candidates (l : list (gmap string pyval)) :
  Forall measured l →
  ∃ ordered, sorted (λ x, dict_item x "distance") l = Ok ordered
             ∧ ordered ≡ₚ l
             ∧ StronglySorted not_farther ordered.
Proof.
  intros Hl. unfold sorted. rewrite (keyed_distances l Hl). simpl.
  destruct (sort_keyed_sorted (map (λ c, (VFloat (distance_of c), c)) l))
    as (l' & -> & Hperm & Hs).
  { apply Forall_map. eapply Forall_impl; [exact Hl|].
    intros c (m & Hm & Hnan). exists m. unfold distance_of. rewrite Hm. done. }
  simpl. eexists. split; [done|]. split.
  - rewrite (Permutation_map snd Hperm), map_map. simpl. by rewrite map_id.
  - apply sorted_keys_to_items; [|done].
    rewrite Hperm. apply Forall_map. by apply Forall_true.
Qed.

(** The place [load_details] returns does not depend on the world. *)
Lemma load_details_fst s (c : gmap string pyval) w :
  fst (load_details s c w) = enriched s c.
Proof.
  unfold SexPlacesNearBy.enriched, SexPlacesNearBy.load_details, requests_get.
  step_monad. repeat (case_match; simplify_eq; simpl; try done).
Qed.

(** One turn of the loop. *)
Lemma first_relevant_step s (c : gmap string pyval) (rest : list (gmap string pyval)) w :
  first_relevant s (c :: rest) w
  = match load_details s c w with
    | (Ok p, w1) =>
        match is_hotel p with
        | Ok true => first_relevant s rest w1
        | Ok false => (Ok (Some p), w1)
        | Raise e => (Raise e, w1)
        end
    | (Raise e, w1) => (Raise e, w1)
    end.
Proof.
  simpl. unfold bind at 1. destruct (load_details s c w) as [[p|e] w1]; [|done].
  unfold is_hotel, bind, lift, rbind, ret.
  destruct (py_lower _); [|done]. destruct (dict_item p "keyword"); [|done].
  by destruct (_ && _).
Qed.

(** The loop returns the first candidate that is not passed over. *)
Lemma first_relevant_spec s (ordered : list (gmap string pyval)) w :
  match fst (first_relevant s ordered w) with
  | Ok (Some p) =>
      ∃ pre c post,
        ordered = pre ++ c :: post
        ∧ enriched s c = Ok p ∧ is_hotel p = Ok false
        ∧ Forall (λ c', ∃ p', enriched s c' = Ok p' ∧ is_hotel p' = Ok true) pre
  | Ok None =>
      Forall (λ c, ∃ p, enriched s c = Ok p ∧ is_hotel p = Ok true) ordered
  | Raise e =>
      ∃ c, c ∈ ordered
           ∧ (enriched s c = Raise e
              ∨ ∃ p, enriched s c = Ok p ∧ is_hotel p = Raise e)
  end.
Proof.
  revert w. induction ordered as [|c rest IH]; intros w.
  - simpl. constructor.
  - rewrite first_relevant_step.
    pose proof (load_details_fst s c w) as Hfst.
    destruct (load_details s c w) as [[p|e] w1]; simpl in Hfst.
    + destruct (is_hotel p) as [[|]|e] eqn:Hhotel; simpl.
      * specialize (IH w1).
        destruct (fst (first_relevant s rest w1)) as [[q|]|e].
        -- destruct IH as (pre & c0 & post & -> & Hc0 & Hq & Hpre).
           exists (c :: pre), c0, post. repeat split; try done.
           constructor; [|done]. by exists p.
        -- constructor; [|done]. by exists p.
        -- destruct IH as (c0 & Hin & Hc0). exists c0. split; [by right|done].
      * exists [], c, rest. repeat split; try done.
      * exists c. split; [left|]. right. by exists p.
    + simpl. exists c. split; [left|]. by left.
Qed.


(** What the filter of [get_closest] keeps. *)
Lemma kept_truthy_distance (d : gmap string pyval) :
  kept (Some d) = true ↔ d ≠ ∅ ∧ truthy (dict_get d "distance") = true.
Proof.
  unfold kept. rewrite andb_true_iff. by rewrite truthy_dict.
Qed.

Lemma kept_zero_distance (d : gmap string pyval) (m : pyfloat) :
  d !! "distance" = Some (VFloat m) → float_is_zero m = true →
  kept (Some d) = false.
Proof.
  intros Hd Hm. unfold kept, dict_get. rewrite Hd. simpl. rewrite Hm.
  apply andb_false_r.
Qed.
End Resolver.

(** ** The resolver on the sample data *)

Lemma sample_vincenty_not_nan (a : pyval * pyval) (b : pyfloat * pyfloat) (m : pyfloat) :
  Sample.vincenty a b = Ok m → float_isnan m = false.
Proof.
  destruct a as [a1 a2], b as [b1 b2]. unfold Sample.vincenty. simpl.
  destruct a1 as [| | |[| |x]| | |]; try done.
  destruct b1 as [| |y]; try done. by intros [= <-].
Qed.

(** The example of the specification: the hotel found 12 m away under
    'motel' is passed over, and the shop 40 m away is returned with its
    details. *)
Example get_closest_hotel_and_shop :
  ∃ p, fst (SexPlacesNearBy.get_closest Sample.float_of_string Sample.vincenty
              Sample.http_hotel_and_shop Sample.sex_places empty_world)
       = Ok (Some p)
       ∧ p !! "keyword" = Some (VStr "sex shop")
       ∧ p !! "name" = Some (VStr "Shop X")
       ∧ p !! "address" = Some (VStr "Rua Augusta, 1")
       ∧ p !! "phone" = Some (VStr "")
       ∧ p !! "id" = Some (VStr "shop-1")
       ∧ float_leb (SexPlacesNearBy.distance_of p) (FFin 40) = true
       ∧ float_leb (FFin 40) (SexPlacesNearBy.distance_of p) = true.
Proof.
  set (r := fst (SexPlacesNearBy.get_closest Sample.float_of_string Sample.vincenty
                   Sample.http_hotel_and_shop Sample.sex_places empty_world)).
  assert (Hr : match r with
               | Ok (Some p) =>
                   p !! "keyword" = Some (VStr "sex shop")
                   ∧ p !! "name" = Some (VStr "Shop X")
                   ∧ p !! "address" = Some (VStr "Rua Augusta, 1")
                   ∧ p !! "phone" = Some (VStr "")
                   ∧ p !! "id" = Some (VStr "shop-1")
                   ∧ float_leb (SexPlacesNearBy.distance_of p) (FFin 40) = true
                   ∧ float_leb (FFin 40) (SexPlacesNearBy.distance_of p) = true
               | _ => False
               end).
  { vm_compute. repeat split. }
  destruct r as [[p|]|]; try done. by exists p.
Qed.


Lemma get_closest_invalid_coordinate_witness :
  (SexPlacesNearBy.unparseable_or_nan Sample.float_of_string
     (SexPlacesNearBy.latitude Sample.sex_places_no_geo)
   ∨ (SexPlacesNearBy.is_valid_coordinate Sample.float_of_string
        (SexPlacesNearBy.latitude Sample.sex_places_no_geo) = Ok true
      ∧ SexPlacesNearBy.unparseable_or_nan Sample.float_of_string
          (SexPlacesNearBy.longitude Sample.sex_places_no_geo)))
  ∧ SexPlacesNearBy.company Sample.sex_places_no_geo !! "cnpj"
    = Some (VStr "12.345.678/0001-90")
  ∧ SexPlacesNearBy.get_closest Sample.float_of_string Sample.vincenty
      Sample.http_hotel_and_shop Sample.sex_places_no_geo empty_world
    = (Ok None,
       {| stdout := [NoGeolocation (VStr "Acme") (VStr "12.345.678/0001-90")];
          requests := [];
          files := ∅ |}).
Proof.
  assert (Hbad : SexPlacesNearBy.unparseable_or_nan Sample.float_of_string
                   (SexPlacesNearBy.latitude Sample.sex_places_no_geo)
                 ∨ (SexPlacesNearBy.is_valid_coordinate Sample.float_of_string
                      (SexPlacesNearBy.latitude Sample.sex_places_no_geo) = Ok true
                    ∧ SexPlacesNearBy.unparseable_or_nan Sample.float_of_string
                        (SexPlacesNearBy.longitude Sample.sex_places_no_geo))).
  { left. left. reflexivity. }
  assert (Hcnpj : SexPlacesNearBy.company Sample.sex_places_no_geo !! "cnpj"
                  = Some (VStr "12.345.678/0001-90")).
  { vm_compute. reflexivity. }
  split; [exact Hbad|]. split; [exact Hcnpj|].
  destruct (get_closest_invalid_coordinate Sample.float_of_string Sample.vincenty
              Sample.http_hotel_and_shop Sample.sex_places_no_geo empty_world
              (VStr "12.345.678/0001-90") Hbad Hcnpj) as [Hrun _].
  rewrite Hrun. vm_compute. reflexivity.
Defined.

(** C2, against the claim as it is worded: an infinite latitude is not a
    finite real number, yet the resolver takes it for valid, sends its
    twelve searches and prints no line about missing geolocation. *)
Lemma get_closest_infinite_latitude_searches :
  SexPlacesNearBy.py_float Sample.float_of_string
    (SexPlacesNearBy.latitude Sample.sex_places_infinite) = Ok (FInf false)
  ∧ float_is_finite (FInf false) = false
  ∧ length (requests (snd (SexPlacesNearBy.get_closest Sample.float_of_string
                             Sample.vincenty Sample.http_nothing
                             Sample.sex_places_infinite empty_world))) = 12
  ∧ stdout (snd (SexPlacesNearBy.get_closest Sample.float_of_string
                   Sample.vincenty Sample.http_nothing
                   Sample.sex_places_infinite empty_world))
    = map (λ k, LookingFor k (VStr "ACME COMERCIO LTDA") (VStr "12.345.678/0001-90"))
        SexPlacesNearBy.KEYWORDS.
Proof.
  split; [reflexivity|]. split; [reflexivity|].
  split; vm_compute; reflexivity.
Qed.

(** C3, on the code: the shop found at the very coordinates of the company
    has the distance 0.0, which is not null; the filter of [get_closest]
    drops it, and the resolver returns null. *)
Theorem zero_distance_place_is_dropped :
  fst (SexPlacesNearBy.load_place Sample.float_of_string Sample.vincenty
         Sample.http_same_spot Sample.sex_places "sex shop" empty_world)
  = Ok (Some Sample.place_same_spot)
  ∧ (∃ m, Sample.place_same_spot !! "distance" = Some (VFloat m)
          ∧ float_is_zero m = true)
  ∧ SexPlacesNearBy.kept (Some Sample.place_same_spot) = false
  ∧ fst (SexPlacesNearBy.get_closest Sample.float_of_string Sample.vincenty
           Sample.http_same_spot Sample.sex_places empty_world)
    = Ok None.
Proof.
  split; [vm_compute; reflexivity|].
  split; [eexists; split; vm_compute; reflexivity|].
  split; vm_compute; reflexivity.
Qed.

(** C4, against the claim as it is worded: a 'ZERO_RESULTS' body that
    carries an error message is logged. *)
Lemma parse_zero_results_with_message_logs :
  SexPlacesNearBy.parse Sample.float_of_string Sample.vincenty Sample.sex_places
    Sample.zero_results_with_message empty_world
  = (Ok None,
     {| stdout := [StatusError (VStr "ZERO_RESULTS") VNone];
        requests := [];
        files := ∅ |}).
Proof. vm_compute. reflexivity. Qed.


Lemma parse_status_not_ok_witness :
  SexPlacesNearBy.parse Sample.float_of_string Sample.vincenty Sample.sex_places
    {| url := Sample.search_url "motel"; body := Some Sample.zero_results |}
    empty_world
  = (Ok None, empty_world)
  ∧ ∃ w', SexPlacesNearBy.get_closest Sample.float_of_string Sample.vincenty
            Sample.http_nothing Sample.sex_places empty_world = (Ok None, w')
          ∧ stdout w'
            = map (λ k, LookingFor k (VStr "ACME COMERCIO LTDA")
                          (VStr "12.345.678/0001-90"))
                SexPlacesNearBy.KEYWORDS.
Proof.
  destruct (parse_status_not_ok Sample.float_of_string Sample.vincenty
              Sample.http_nothing) as [Hparse Hall].
  split.
  - rewrite (Hparse _ _ (<["status" := VStr "ZERO_RESULTS"]> (<["results" := VList []]> ∅))
               (VStr "ZERO_RESULTS"));
      [vm_compute; reflexivity|reflexivity|by vm_compute|reflexivity].
  - destruct (Hall Sample.sex_places (VStr "ACME COMERCIO LTDA")
                (VStr "12.345.678/0001-90") empty_world)
      as (w' & Hrun & Hout & _); try (vm_compute; reflexivity).
    + intros k u _ _. eexists _, _. split; [reflexivity|].
      split; [reflexivity|]. split; vm_compute; reflexivity.
    + exists w'. split; [exact Hrun|exact Hout].
Defined.



(** ** find_newest_file *)

Section StringOrder.
Implicit Types a b c : string.

Lemma string_ltb_lt a b : String.ltb a b = true ↔ String_as_OT.lt a b.
Proof.
  rewrite <- String_as_OT.cmp_lt. unfold String.ltb, String_as_OT.cmp.
  destruct (String.compare a b); split; congruence.
Qed.

Lemma string_ltb_trans a b c :
  String.ltb a b = true → String.ltb b c = true → String.ltb a c = true.
Proof. rewrite !string_ltb_lt. apply String_as_OT.lt_trans. Qed.

Lemma string_ltb_asym a b : String.ltb a b = true → String.ltb b a = false.
Proof.
  unfold String.ltb. rewrite (String.compare_antisym a b).
  by destruct (String.compare b a).
Qed.

Lemma string_ltb_total a b :
  String.ltb a b = false → String.ltb b a = false → a = b.
Proof.
  unfold String.ltb. rewrite (String.compare_antisym b a).
  destruct (String.compare a b) eqn:E; try done.
  intros _ _. by apply String.compare_eq_iff.
Qed.

Lemma string_ltb_irrefl a : String.ltb a a = false.
Proof.
  destruct (String.ltb a a) eqn:E; [|done].
  by rewrite (string_ltb_asym a a E) in E.
Qed.

(** [b <= a] and [a < c] give [b < c]. *)
Lemma string_le_ltb_trans a b c :
  String.ltb a b = false → String.ltb a c = true → String.ltb b c = true.
Proof.
  intros Hab Hac. destruct (String.ltb b a) eqn:Hba.
  - by apply (string_ltb_trans b a c).
  - by rewrite <- (string_ltb_total a b Hab Hba).
Qed.
End StringOrder.

Section LocatorFacts.
Variable listdir : list string.
Variable isfile : string → bool.

(** No later element follows: the order [sorted(..., reverse=True)] leaves
    the dates in. *)
Local Abbreviation not_before := (λ a b : string, String.ltb a b = false).

Lemma insert_desc_elem_of (x y : string) (l : list string) :
  y ∈ insert_desc x l ↔ y = x ∨ y ∈ l.
Proof.
  induction l as [|z r IH]; simpl; [set_solver|].
  destruct (String.ltb x z); [|set_solver].
  rewrite elem_of_cons, IH. set_solver.
Qed.

Lemma insert_desc_sorted (x : string) (l : list string) :
  StronglySorted not_before l → StronglySorted not_before (insert_desc x l).
Proof.
  induction 1 as [|y r Hs IH Hy]; simpl; [repeat constructor|].
  destruct (String.ltb x y) eqn:Hxy.
  - constructor; [done|]. apply Forall_forall. intros z Hz.
    apply insert_desc_elem_of in Hz as [->|Hz].
    + by apply string_ltb_asym.
    + rewrite Forall_forall in Hy. by apply Hy.
  - constructor; [by constructor|]. constructor; [done|].
    apply Forall_forall. intros z Hz. rewrite Forall_forall in Hy.
    specialize (Hy z Hz). simpl in Hy.
    destruct (String.ltb x z) eqn:Hxz; [|done].
    by rewrite (string_le_ltb_trans x y z Hxy Hxz) in Hy.
Qed.

Lemma sorted_set_reverse_elem_of (x : string) (l : list string) :
  x ∈ sorted_set_reverse l ↔ x ∈ l.
Proof.
  unfold sorted_set_reverse. rewrite <- (elem_of_remove_dups l).
  induction (remove_dups l) as [|y r IH]; simpl; [done|].
  rewrite insert_desc_elem_of, IH. set_solver.
Qed.

Lemma sorted_set_reverse_sorted (l : list string) :
  StronglySorted not_before (sorted_set_reverse l).
Proof.
  unfold sorted_set_reverse.
  induction (remove_dups l) as [|y r IH]; simpl; [constructor|].
  by apply insert_desc_sorted.
Qed.

(** The loop returns the path of the first date that has its file. *)
Lemma first_existing_spec (name : string) (dates : list string) :
  match first_existing isfile name dates with
  | Some path =>
      ∃ pre d post,
        dates = pre ++ d :: post
        ∧ path = dated_path d name ∧ isfile path = true
        ∧ Forall (λ d', isfile (dated_path d' name) = false) pre
  | None => Forall (λ d, isfile (dated_path d name) = false) dates
  end.
Proof.
  induction dates as [|d r IH]; simpl; [constructor|].
  destruct (isfile (dated_path d name)) eqn:Hd.
  - by exists [], d, r.
  - destruct (first_existing isfile name r) as [path|].
    + destruct IH as (pre & d0 & post & -> & -> & Hfile & Hpre).
      exists (d :: pre), d0, post. repeat split; try done. by constructor.
    + by constructor.
Qed.

(** A match of the pattern is found again at the start of any string it
    begins. *)
Lemma match_here_again (pattern : list (ascii → bool)) (s m t : string) :
  match_here pattern s = Some m → match_here pattern (m +:+ t) = Some m.
Proof.
  revert s m. induction pattern as [|p pattern' IH]; intros s m; simpl.
  - by intros [= <-].
  - destruct s as [|c r]; [done|]. destruct (p c) eqn:Hp; [|done].
    destruct (match_here pattern' r) as [m'|] eqn:Hm; [|done].
    intros [= <-]. simpl. rewrite Hp. by rewrite (IH r m' Hm).
Qed.

Lemma findall_from_match (pattern : list (ascii → bool)) (skip : nat) (s m : string) :
  m ∈ findall_from pattern skip s → ∃ s', match_here pattern s' = Some m.
Proof.
  revert skip. induction s as [|c r IH]; intros skip; simpl.
  - by intros ?%elem_of_nil.
  - destruct skip as [|k]; [|apply IH].
    destruct (match_here pattern (String c r)) as [m0|] eqn:Hm; [|apply IH].
    intros [->|Hin]%elem_of_cons; [by eexists|by eapply IH].
Qed.

Lemma findall_from_head (pattern : list (ascii → bool)) (c : ascii) (r m : string) :
  match_here pattern (String c r) = Some m →
  findall_from pattern 0 (String c r)
  = m :: findall_from pattern (Nat.pred (String.length m)) r.
Proof. intros Hm. cbn [findall_from]. by rewrite Hm. Qed.

(** A date opens the matches of the file name it starts. *)
Lemma findall_dated_name (d rest : string) :
  (∃ s', match_here date_regex s' = Some d) →
  ∃ others, findall date_regex (d +:+ rest) = d :: others.
Proof.
  intros [s' Hd]. pose proof (match_here_again date_regex s' d rest Hd) as Hagain.
  destruct d as [|c d'].
  - destruct s' as [|c0 r0]; simpl in Hd; [done|].
    repeat (case_match; try done).
  - change (String c d' +:+ rest) with (String c (d' +:+ rest)) in *.
    unfold findall. rewrite (findall_from_head _ _ _ _ Hagain). by eexists.
Qed.

Lemma first_matches_elem_of (pattern : list (ascii → bool)) (f d : string)
    (others : list string) (l : list string) :
  f ∈ l → findall pattern f = d :: others →
  d ∈ first_matches (map (findall pattern) l).
Proof.
  intros Hf Hd. induction l as [|g r IH]; [by apply elem_of_nil in Hf|].
  simpl. apply elem_of_cons in Hf as [<-|Hf].
  - rewrite Hd. left.
  - destruct (findall pattern g); [by apply IH|]. right. by apply IH.
Qed.

Lemma first_matches_embedded (d : string) (l : list string) :
  d ∈ first_matches (map (findall date_regex) l) →
  d ∈ concat (map (findall date_regex) l).
Proof.
  induction l as [|f r IH]; simpl; [done|].
  destruct (findall date_regex f) as [|m ms]; simpl; [done|].
  intros [->|Hin]%elem_of_cons; [left|].
  right. apply elem_of_app. right. by apply IH.
Qed.

(** Of the dates found in the listing, those with a file on disk are
    among the dates the code collects, when the listing is complete. *)
Lemma embedded_date_collected (name d : string) :
  listing_complete listdir isfile name →
  d ∈ embedded_dates listdir →
  isfile (dated_path d name) = true →
  d ∈ first_matches (map (findall date_regex) listdir).
Proof.
  intros Hcomplete Hd Hfile. unfold embedded_dates in Hd.
  apply list_elem_of_In, in_concat in Hd as (ms & Hms & Hd).
  apply in_map_iff in Hms as (f & <- & _).
  apply list_elem_of_In in Hd.
  apply findall_from_match in Hd.
  destruct (findall_dated_name d ("-" +:+ name +:+ ".xz") Hd) as [others Hall].
  eapply first_matches_elem_of; [|exact Hall].
  by apply Hcomplete.
Qed.

End LocatorFacts.

(** The example of the specification: with the two snapshots of the
    companies and a stray later file, the snapshot of 2023-01-05 is found. *)
Example find_newest_file_companies :
  find_newest_file Sample.listdir Sample.isfile "companies"
  = Some "data/2023-01-05-companies.xz".
Proof. vm_compute. reflexivity. Qed.

Lemma sample_listing_complete (name : string) :
  listing_complete Sample.listdir Sample.isfile name.
Proof.
  intros d Hfile. unfold Sample.isfile in Hfile.
  apply bool_decide_eq_true in Hfile.
  apply list_elem_of_In, in_map_iff in Hfile as (f & Heq & Hf).
  unfold dated_path, path_join in Heq. simpl in Heq.
  injection Heq as Heq.
  change (f = d +:+ "-" +:+ name +:+ ".xz") in Heq.
  subst f. by apply list_elem_of_In.
Qed.


(** * The rest of the script *)

(** ** Runs: what a computation prints, sends and leaves untouched *)

Section Runs.
Context (P : request → Prop).

Lemma api_run_refl (n : nat) w : api_run P n w w.
Proof.
  split; [done|]. split; [done|]. exists []. rewrite app_nil_r.
  split; [done|]. split; [simpl; lia|constructor].
Qed.

Lemma api_run_trans (n k : nat) w w1 w2 :
  api_run P n w w1 → api_run P k w1 w2 → api_run P (n + k) w w2.
Proof.
  intros (Hout & Hfiles & new & Hreq & Hlen & Hnew)
         (Hout' & Hfiles' & new' & Hreq' & Hlen' & Hnew').
  split; [by etrans|]. split; [congruence|].
  exists (new ++ new'). split; [by rewrite Hreq', Hreq, app_assoc|].
  split; [rewrite length_app; lia|by apply Forall_app].
Qed.

Lemma api_run_weaken (n k : nat) w w' :
  (n ≤ k)%nat → api_run P n w w' → api_run P k w w'.
Proof.
  intros Hnk (Hout & Hfiles & new & Hreq & Hlen & Hnew).
  split; [done|]. split; [done|]. exists new. repeat split; try done. lia.
Qed.

Lemma runs_ret {A} (n : nat) (Q : A → Prop) (a : A) : Q a → runs P n Q (ret a).
Proof.
  intros Ha w. split; [apply api_run_refl|]. simpl. by intros ? [= <-].
Qed.

Lemma runs_lift {A} (n : nat) (r : result A) : runs P n (λ a, r = Ok a) (lift r).
Proof. intros w. split; [apply api_run_refl|done]. Qed.

Lemma runs_raise {A} (n : nat) (Q : A → Prop) (e : exn) : runs P n Q (raise e).
Proof. intros w. split; [apply api_run_refl|done]. Qed.

Lemma runs_print (n : nat) (l : line) : runs P n (λ _, True) (print l).
Proof.
  intros w. split; [|done]. split; [by apply prefix_app_r|].
  split; [done|]. exists []. simpl. rewrite app_nil_r.
  split; [done|]. split; [lia|constructor].
Qed.

Lemma runs_record (n : nat) (r : request) :
  P r → runs P (S n) (λ _, True) (record_request r).
Proof.
  intros Hr w. split; [|done]. split; [done|]. split; [done|].
  exists [r]. simpl. split; [done|]. split; [lia|by constructor].
Qed.

Lemma runs_bind {A B} (n k : nat) (Q : A → Prop) (R : B → Prop)
    (m : M A) (f : A → M B) :
  runs P n Q m → (∀ a, Q a → runs P k R (f a)) → runs P (n + k) R (bind m f).
Proof.
  intros Hm Hf w. unfold bind. destruct (Hm w) as [Hrun HQ].
  destruct (m w) as [[a|e] w1]; simpl in *.
  - destruct (Hf a (HQ a eq_refl) w1) as [Hrun' HR].
    split; [by eapply api_run_trans|done].
  - split; [|done]. eapply api_run_weaken; [|exact Hrun]. lia.
Qed.

Lemma runs_weaken {A} (n k : nat) (Q Q' : A → Prop) (m : M A) :
  (n ≤ k)%nat → (∀ a, Q a → Q' a) → runs P n Q m → runs P k Q' m.
Proof.
  intros Hnk HQ Hm w. destruct (Hm w) as [Hrun Ha].
  split; [by eapply api_run_weaken|]. intros a Hfst. by apply HQ, Ha.
Qed.

(** A first part that sends nothing. *)
Lemma runs_bind_quiet {A B} (k : nat) (Q : A → Prop) (R : B → Prop)
    (m : M A) (f : A → M B) :
  runs P 0 Q m → (∀ a, Q a → runs P k R (f a)) → runs P k R (bind m f).
Proof. intros Hm Hf. by apply (runs_bind 0 k Q R). Qed.

(** A last part that sends nothing. *)
Lemma runs_bind_then_quiet {A B} (n : nat) (Q : A → Prop) (R : B → Prop)
    (m : M A) (f : A → M B) :
  runs P n Q m → (∀ a, Q a → runs P 0 R (f a)) → runs P n R (bind m f).
Proof.
  intros Hm Hf. eapply runs_weaken; [| |by apply (runs_bind n 0 Q R)]; [lia|done].
Qed.

(** A pure step, whose value does not matter. *)
Lemma runs_bind_lift {A B} (k : nat) (R : B → Prop) (r : result A) (f : A → M B) :
  (∀ a, r = Ok a → runs P k R (f a)) → runs P k R (bind (lift r) f).
Proof. intros Hf. eapply runs_bind_quiet; [apply runs_lift|done]. Qed.

Lemma runs_bind_print {B} (k : nat) (R : B → Prop) (l : line) (f : unit → M B) :
  runs P k R (f tt) → runs P k R (bind (print l) f).
Proof.
  intros Hf. eapply runs_bind_quiet; [apply runs_print|]. by intros [] _.
Qed.
End Runs.

(** The tactic for a computation that sends nothing. *)
Ltac quiet_run :=
  repeat first
    [ apply runs_bind_print
    | apply runs_bind_lift; intros ? ?
    | apply runs_ret; try done
    | apply runs_raise
    | progress case_match ].

Section Effects.
Variable float_of_string : string → option pyfloat.
Variable vincenty : pyval * pyval → pyfloat * pyfloat → result pyfloat.
Variable http : request → option response.

Import SexPlacesNearBy.

Local Abbreviation is_valid := (SexPlacesNearBy.is_valid float_of_string).
Local Abbreviation get := (SexPlacesNearBy.get http).
Local Abbreviation parse := (SexPlacesNearBy.parse float_of_string vincenty).
Local Abbreviation load_details := (SexPlacesNearBy.load_details http).
Local Abbreviation load_place :=
  (SexPlacesNearBy.load_place float_of_string vincenty http).
Local Abbreviation load_places :=
  (SexPlacesNearBy.load_places float_of_string vincenty http).
Local Abbreviation first_relevant := (SexPlacesNearBy.first_relevant http).
Local Abbreviation get_closest :=
  (SexPlacesNearBy.get_closest float_of_string vincenty http).

Implicit Types (s : self) (w : world) (P : request → Prop).

Lemma google_places_url_api s (endpoint : string) (query : list (string * qparam)) u :
  endpoint = "nearbysearch" ∨ endpoint = "details" →
  google_places_url s endpoint query = Ok u → api_request s u.
Proof.
  intros Hend. unfold google_places_url. destruct query as [|q query]; [done|].
  intros [= <-]. repeat split; try done.
  change (last ((q :: query) ++ [("key", Plain (VStr (key s)))])
          = Some ("key", Plain (VStr (key s)))).
  apply last_snoc.
Qed.

Lemma is_valid_runs P (n : nat) s : runs P n (λ _, True) (is_valid s).
Proof. unfold SexPlacesNearBy.is_valid. quiet_run. Qed.

Lemma parse_runs P (n : nat) s resp : runs P n (λ _, True) (parse s resp).
Proof. unfold SexPlacesNearBy.parse. quiet_run. Qed.

Lemma requests_get_runs (n : nat) s u :
  api_request s u → runs (api_request s) (S n) (λ _, True) (requests_get http u).
Proof.
  intros Hu. unfold requests_get.
  apply (runs_bind_then_quiet _ (S n) (λ _, True)); [by apply runs_record|].
  intros _ _. case_match; [by apply runs_ret|apply runs_raise].
Qed.

Lemma get_runs (n : nat) s (keyword : string) :
  runs (api_request s) (S n) (λ _, True) (get s keyword).
Proof.
  unfold SexPlacesNearBy.get.
  apply runs_bind_lift. intros name_cnpj _. apply runs_bind_print.
  apply runs_bind_lift. intros u Hu. apply requests_get_runs.
  eapply google_places_url_api; [|exact Hu]. by left.
Qed.

Lemma load_place_runs (n : nat) s (keyword : string) :
  runs (api_request s) (S n) (λ _, True) (load_place s keyword).
Proof.
  unfold SexPlacesNearBy.load_place.
  eapply runs_bind_then_quiet; [apply get_runs|]. intros resp _. apply parse_runs.
Qed.

Lemma load_places_runs s (keywords : list string) :
  runs (api_request s) (length keywords)
    (λ places, length places = length keywords) (load_places s keywords).
Proof.
  induction keywords as [|k r IH]; simpl; [by apply runs_ret|].
  apply (runs_bind _ 1 (length r) (λ _, True)); [apply load_place_runs|].
  intros p _. eapply runs_bind_then_quiet; [exact IH|].
  intros ps Hps. apply runs_ret. simpl. by rewrite Hps.
Qed.

Lemma load_details_runs (n : nat) s (place : gmap string pyval) :
  runs (api_request s) (S n) (λ _, True) (load_details s place).
Proof.
  unfold SexPlacesNearBy.load_details.
  apply runs_bind_lift. intros distance _.
  apply runs_bind_lift. intros kiss _. apply runs_bind_print.
  case_match; [by apply runs_ret|].
  apply runs_bind_lift. intros u Hu.
  eapply runs_bind_then_quiet.
  { apply requests_get_runs. eapply google_places_url_api; [|exact Hu]. by right. }
  intros resp _. quiet_run.
Qed.

Lemma first_relevant_runs s (ordered : list (gmap string pyval)) :
  runs (api_request s) (length ordered) (λ _, True) (first_relevant s ordered).
Proof.
  induction ordered as [|c rest IH]; simpl; [by apply runs_ret|].
  apply (runs_bind _ 1 (length rest) (λ _, True)); [apply load_details_runs|].
  intros place _. apply runs_bind_lift. intros name _.
  apply runs_bind_lift. intros keyword _.
  case_match; [exact IH|by apply runs_ret].
Qed.

Lemma insert_by_length {A} (x : pyval * A) (l l' : list (pyval * A)) :
  insert_by x l = Ok l' → length l' = S (length l).
Proof.
  revert l'. induction l as [|y r IH]; intros l'; simpl.
  - by intros [= <-].
  - destruct (py_lt y.1 x.1) as [[|]|]; simpl; [|by intros [= <-]|done].
    destruct (insert_by x r) as [r'|]; simpl; [|done].
    intros [= <-]. simpl. by rewrite (IH r' eq_refl).
Qed.

Lemma sorted_length {A} (key : A → result pyval) (l ordered : list A) :
  sorted key l = Ok ordered → length ordered = length l.
Proof.
  unfold sorted.
  assert (Hkeyed : ∀ ks, keyed key l = Ok ks → length ks = length l).
  { induction l as [|x r IH]; simpl; [by intros ? [= <-]|].
    destruct (key x); simpl; [|done].
    destruct (keyed key r) as [r'|]; simpl; [|done].
    intros ks [= <-]. simpl. by rewrite (IH r' eq_refl). }
  assert (Hsort : ∀ ks s : list (pyval * A),
            sort_keyed ks = Ok s → length s = length ks).
  { induction ks as [|x r IH]; simpl; [by intros ? [= <-]|].
    destruct (sort_keyed r) as [r'|]; simpl; [|done].
    intros s Hs. rewrite (insert_by_length _ _ _ Hs). by rewrite (IH r' eq_refl). }
  destruct (keyed key l) as [ks|]; simpl; [|done].
  destruct (sort_keyed ks) as [s|] eqn:Hs; simpl; [|done].
  intros [= <-]. rewrite length_map, (Hsort ks s Hs). by apply Hkeyed.
Qed.

Lemma cleaned_length (places : list (option (gmap string pyval))) :
  (length (cleaned places) ≤ length places)%nat.
Proof.
  induction places as [|[d|] r IH]; simpl; [lia| |lia].
  destruct (_ && _); simpl; lia.
Qed.

Lemma get_closest_runs s : runs (api_request s) 24 (λ _, True) (get_closest s).
Proof.
  unfold SexPlacesNearBy.get_closest.
  eapply runs_bind_quiet; [apply is_valid_runs|]. intros valid _.
  case_match; [by apply runs_ret|].
  apply (runs_bind _ 12 12 (λ places, length places = 12));
    [apply (load_places_runs s KEYWORDS)|].
  intros places Hplaces. apply runs_bind_lift. intros ordered Hordered.
  eapply runs_weaken; [| |apply first_relevant_runs]; [|done].
  rewrite (sorted_length _ _ _ Hordered).
  pose proof (cleaned_length places). lia.
Qed.

(** X1: whatever the company and the answers of the API, the resolver
    touches no file, only adds lines to the output, and sends at most
    twenty-four requests: each goes to the Places API in JSON, to the
    nearby search or to the details, with the API key as last parameter. *)
Theorem get_closest_effects s w :
  let w' := snd (get_closest s w) in
  stdout w `prefix_of` stdout w'
  ∧ files w' = files w
  ∧ ∃ new, requests w' = requests w ++ new
           ∧ (length new ≤ 24)%nat
           ∧ Forall (λ r, base r = BASE_URL
                          ∧ format r = "json"
                          ∧ (endpoint r = "nearbysearch" ∨ endpoint r = "details")
                          ∧ last (query r) = Some ("key", Plain (VStr (key s))))
                    new.
Proof. intros w'. by destruct (get_closest_runs s w) as [Hrun _]. Qed.

(** *** Where the resolver gives up *)

Local Abbreviation py_float := (SexPlacesNearBy.py_float float_of_string).
Local Abbreviation is_valid_coordinate :=
  (SexPlacesNearBy.is_valid_coordinate float_of_string).

Lemma is_valid_coordinate_raises (coord : pyval) (e : exn) :
  e ≠ ValueError → py_float coord = Raise e → is_valid_coordinate coord = Raise e.
Proof.
  intros He Hc. unfold SexPlacesNearBy.is_valid_coordinate. rewrite Hc.
  by destruct e.
Qed.

(** X2: [is_valid_coordinate] catches [ValueError] alone.  A coordinate
    that [float] refuses in another way (a [None], a list or a dict with
    TypeError, an integer too large with OverflowError) makes the resolver
    raise that error at once: nothing is printed and nothing is sent. *)
Theorem get_closest_coordinate_error s w (e : exn) :
  e ≠ ValueError →
  py_float (latitude s) = Raise e
  ∨ (is_valid_coordinate (latitude s) = Ok true ∧ py_float (longitude s) = Raise e) →
  get_closest s w = (Raise e, w).
Proof.
  intros He Hcoord.
  unfold SexPlacesNearBy.get_closest, SexPlacesNearBy.is_valid. step_monad.
  destruct Hcoord as [Hlat | [Hlat Hlon]].
  - by rewrite (is_valid_coordinate_raises _ e He Hlat).
  - by rewrite Hlat, (is_valid_coordinate_raises _ e He Hlon).
Qed.

(** X3: a company dict that has a 'keyword' key, or lacks 'name' or 'cnpj',
    cannot be searched for: the message of [get] cannot be formatted, so
    [get] raises (TypeError, KeyError) before it prints or sends anything,
    and with valid coordinates so does the resolver. *)
Theorem get_needs_company_keys s (keyword : string) w :
  is_Some (company s !! "keyword")
  ∨ company s !! "name" = None
  ∨ company s !! "cnpj" = None →
  ∃ e, (e = TypeError ∨ e = KeyError)
       ∧ get s keyword w = (Raise e, w)
       ∧ (is_valid_coordinate (latitude s) = Ok true →
          is_valid_coordinate (longitude s) = Ok true →
          get_closest s w = (Raise e, w)).
Proof.
  intros Hkeys.
  assert (Hget : ∃ e, (e = TypeError ∨ e = KeyError)
                      ∧ ∀ k : string, get s k w = (Raise e, w)).
  { destruct (company s !! "keyword") as [v|] eqn:Hkw.
    { exists TypeError. split; [by left|]. intros k.
      unfold SexPlacesNearBy.get. by rewrite Hkw. }
    destruct (company s !! "name") as [name|] eqn:Hname.
    - destruct (company s !! "cnpj") as [cnpj|] eqn:Hcnpj.
      + destruct Hkeys as [[? ?]|[?|?]]; done.
      + exists KeyError. split; [by right|]. intros k.
        unfold SexPlacesNearBy.get, dict_item. by rewrite Hkw, Hname, Hcnpj.
    - exists KeyError. split; [by right|]. intros k.
      unfold SexPlacesNearBy.get, dict_item. by rewrite Hkw, Hname. }
  destruct Hget as (e & He & Hrun). exists e.
  split; [done|]. split; [apply Hrun|].
  intros Hlat Hlon.
  unfold SexPlacesNearBy.get_closest, SexPlacesNearBy.is_valid. step_monad.
  rewrite Hlat, Hlon. simpl. unfold SexPlacesNearBy.load_place, bind.
  by rewrite (Hrun "acompanhantes").
Qed.

(** X4: a transport failure is not caught.  When the first search cannot
    be sent, the resolver raises the exception of [requests]: the line of
    that search is printed, its request is on record, and no other keyword
    is tried. *)
Theorem get_closest_transport_failure s w (name cnpj : pyval) (u : request) :
  is_valid_coordinate (latitude s) = Ok true →
  is_valid_coordinate (longitude s) = Ok true →
  company s !! "keyword" = None →
  company s !! "name" = Some name →
  company s !! "cnpj" = Some cnpj →
  nearby_url s "acompanhantes" = Ok u →
  http u = None →
  get_closest s w
  = (Raise RequestException,
     {| stdout := stdout w ++ [LookingFor "acompanhantes" name cnpj];
        requests := requests w ++ [u];
        files := files w |}).
Proof.
  intros Hlat Hlon Hkw Hname Hcnpj Hu Hhttp.
  unfold SexPlacesNearBy.get_closest, SexPlacesNearBy.is_valid. step_monad.
  rewrite Hlat, Hlon. simpl.
  unfold SexPlacesNearBy.load_place, SexPlacesNearBy.get, requests_get, dict_item.
  rewrite Hkw, Hname, Hcnpj. step_monad. injection Hu as <-. by rewrite Hhttp.
Qed.
End Effects.

Lemma get_closest_coordinate_error_witness :
  let s := {| SexPlacesNearBy.company := Sample.company;
              SexPlacesNearBy.key := "secret";
              SexPlacesNearBy.latitude := VNone;
              SexPlacesNearBy.longitude := VFloat (FFin (-46)) |} in
  TypeError ≠ ValueError
  ∧ SexPlacesNearBy.py_float Sample.float_of_string (SexPlacesNearBy.latitude s)
    = Raise TypeError
  ∧ SexPlacesNearBy.get_closest Sample.float_of_string Sample.vincenty
      Sample.http_hotel_and_shop s empty_world
    = (Raise TypeError, empty_world).
Proof.
  intros s. split; [done|]. split; [reflexivity|].
  apply (get_closest_coordinate_error Sample.float_of_string Sample.vincenty
           Sample.http_hotel_and_shop s empty_world TypeError); [done|].
  left. reflexivity.
Defined.

Lemma get_needs_company_keys_witness :
  let s := {| SexPlacesNearBy.company := <["keyword" := VStr "bar"]> Sample.company;
              SexPlacesNearBy.key := "secret";
              SexPlacesNearBy.latitude := VFloat (FFin (-23));
              SexPlacesNearBy.longitude := VFloat (FFin (-46)) |} in
  is_Some (SexPlacesNearBy.company s !! "keyword")
  ∧ ∃ e, SexPlacesNearBy.get Sample.http_hotel_and_shop s "motel" empty_world
         = (Raise e, empty_world)
         ∧ SexPlacesNearBy.get_closest Sample.float_of_string Sample.vincenty
             Sample.http_hotel_and_shop s empty_world
           = (Raise e, empty_world).
Proof.
  intros s.
  assert (Hkw : is_Some (SexPlacesNearBy.company s !! "keyword")).
  { eexists. apply lookup_insert_eq. }
  split; [exact Hkw|].
  destruct (get_needs_company_keys Sample.float_of_string Sample.vincenty
              Sample.http_hotel_and_shop s "motel" empty_world (or_introl Hkw))
    as (e & _ & Hget & Hclosest).
  exists e. split; [exact Hget|]. by apply Hclosest.
Defined.

Lemma get_closest_transport_failure_witness :
  ∃ u, SexPlacesNearBy.nearby_url Sample.sex_places "acompanhantes" = Ok u
       ∧ SexPlacesNearBy.get_closest Sample.float_of_string Sample.vincenty
           (λ _, None) Sample.sex_places empty_world
         = (Raise RequestException,
            {| stdout := [LookingFor "acompanhantes" (VStr "ACME COMERCIO LTDA")
                            (VStr "12.345.678/0001-90")];
               requests := [u];
               files := ∅ |}).
Proof.
  eexists. split; [reflexivity|].
  apply (get_closest_transport_failure Sample.float_of_string Sample.vincenty
           (λ _, None) Sample.sex_places empty_world);
    by vm_compute.
Defined.

(** ** The place [parse] builds *)

Lemma digits_only_digits (s : string) :
  Forall (λ c, is_digit c = true) (list_ascii_of_string (digits_only s)).
Proof.
  induction s as [|c r IH]; simpl; [constructor|].
  destruct (is_digit c) eqn:Hc; simpl; [by constructor|done].
Qed.

Lemma re_sub_non_digits_ok (v c : pyval) :
  re_sub_non_digits v = Ok c → ∃ raw, v = VStr raw ∧ c = VStr (digits_only raw).
Proof. destruct v; simpl; try done. intros [= <-]. by eexists. Qed.

Section ParsedPlace.
Variable float_of_string : string → option pyfloat.
Variable vincenty : pyval * pyval → pyfloat * pyfloat → result pyfloat.

Import SexPlacesNearBy.

Local Abbreviation parse := (SexPlacesNearBy.parse float_of_string vincenty).

End ParsedPlace.


(** ** keyword_from_url *)

(** X6: [keyword_from_url] returns the first value given to 'keyword' that
    is not blank, and None when the URL gives 'keyword' no value or blank
    ones only; it never raises. *)
Theorem keyword_from_url_first (u : list (string * string)) :
  (SexPlacesNearBy.keyword_from_url u = VNone
   ↔ ∀ v, ("keyword", v) ∈ u → v = "")
  ∧ (∀ pre k post,
       u = pre ++ ("keyword", k) :: post →
       k ≠ "" →
       (∀ v, ("keyword", v) ∈ pre → v = "") →
       SexPlacesNearBy.keyword_from_url u = VStr k).
Proof.
  unfold SexPlacesNearBy.keyword_from_url, SexPlacesNearBy.parse_qs_get.
  assert (Hskip : ∀ pre : list (string * string),
    (∀ v, ("keyword", v) ∈ pre → v = "") →
    filter (λ p, String.eqb p.1 "keyword" && negb (String.eqb p.2 "")) pre = []).
  { induction pre as [|[a b] pre IH]; intros Hpre; [done|].
    rewrite filter_cons. case_decide as Hab; simpl in Hab.
    - apply Is_true_true, andb_true_iff in Hab as [Ha Hb].
      apply String.eqb_eq in Ha as ->. apply negb_true_iff, String.eqb_neq in Hb.
      destruct Hb. apply Hpre. left.
    - apply IH. intros v Hv. apply Hpre. by right. }
  split.
  - split.
    + intros Hnone v Hv.
      destruct (String.eqb v "") eqn:Hblank; [by apply String.eqb_eq|].
      assert (Hin : ("keyword", v)
                    ∈ filter (λ p, String.eqb p.1 "keyword" && negb (String.eqb p.2 "")) u).
      { apply list_elem_of_filter. split; [|done]. simpl. by rewrite Hblank. }
      destruct (filter _ u) as [|x r]; [by apply elem_of_nil in Hin|done].
    + intros Hall. by rewrite (Hskip u Hall).
  - intros pre k post -> Hk Hpre.
    rewrite filter_app, (Hskip pre Hpre), filter_cons. simpl.
    rewrite decide_True; [done|]. simpl.
    apply String.eqb_neq in Hk. by rewrite Hk.
Qed.

Lemma keyword_from_url_first_witness :
  SexPlacesNearBy.keyword_from_url
    ([("location", "-23,-46"); ("keyword", "")]
     ++ ("keyword", "sex shop") :: [("keyword", "motel"); ("key", "secret")])
  = VStr "sex shop".
Proof.
  destruct (keyword_from_url_first
              ([("location", "-23,-46"); ("keyword", "")]
               ++ ("keyword", "sex shop") :: [("keyword", "motel"); ("key", "secret")]))
    as [_ Hfirst].
  apply (Hfirst [("location", "-23,-46"); ("keyword", "")] "sex shop"
           [("keyword", "motel"); ("key", "secret")]); [done|done|].
  intros v Hv. apply elem_of_cons in Hv as [Hv|Hv]; [done|].
  apply list_elem_of_singleton in Hv. by injection Hv.
Defined.

(** ** The motel that is a hotel *)

Section Substring.
Implicit Types needle hay : string.

Lemma append_nil_l (s : string) : "" +:+ s = s.
Proof. reflexivity. Qed.

Lemma append_cons_l (c : ascii) (r s : string) : String c r +:+ s = String c (r +:+ s).
Proof. reflexivity. Qed.

Lemma string_prefix_spec needle hay :
  String.prefix needle hay = true ↔ ∃ post, hay = needle +:+ post.
Proof.
  revert needle. induction hay as [|b hay' IH]; intros [|a needle'].
  - split; [|reflexivity]. intros _. by exists "".
  - split; [discriminate|]. intros [post Hpost].
    rewrite append_cons_l in Hpost. discriminate.
  - split; [|reflexivity]. intros _. by exists (String b hay').
  - cbn [String.prefix]. destruct (ascii_dec a b) as [->|Hab].
    + rewrite IH. split.
      * intros [post ->]. by exists post.
      * intros [post Hpost]. rewrite append_cons_l in Hpost.
        injection Hpost as ->. by exists post.
    + split; [discriminate|]. intros [post Hpost].
      rewrite append_cons_l in Hpost. by injection Hpost.
Qed.

Lemma str_contains_prefix needle hay :
  String.prefix needle hay = true → str_contains needle hay = true.
Proof. destruct hay; cbn [str_contains]; by intros ->. Qed.

(** [needle in hay] holds exactly of the strings [needle] is part of. *)
Lemma str_contains_spec needle hay :
  str_contains needle hay = true ↔ ∃ pre post, hay = pre +:+ needle +:+ post.
Proof.
  split.
  - induction hay as [|c r IH].
    + cbn [str_contains]. rewrite orb_false_r. intros [post ->]%string_prefix_spec.
      by exists "", post.
    + cbn [str_contains]. intros [Hp|Hr]%orb_true_iff.
      * apply string_prefix_spec in Hp as [post ->]. by exists "", post.
      * destruct (IH Hr) as (pre & post & ->). by exists (String c pre), post.
  - intros (pre & post & ->). induction pre as [|c pre' IH].
    + rewrite append_nil_l. apply str_contains_prefix, string_prefix_spec.
      by exists post.
    + rewrite append_cons_l. cbn [str_contains]. rewrite IH. apply orb_true_r.
Qed.
End Substring.

(** X7: the loop passes over exactly the places whose keyword is 'motel'
    and whose name, put in lower case, has 'hotel' somewhere in it.  A
    place without a name is never passed over; a name that is not a string
    raises AttributeError, and a place without keyword KeyError. *)
Theorem is_hotel_motel_named_hotel (place : gmap string pyval) :
  (SexPlacesNearBy.is_hotel place = Ok true
   ↔ place !! "keyword" = Some (VStr "motel")
     ∧ ∃ name pre post,
         dict_get_default place "name" (VStr "") = VStr name
         ∧ lower name = pre +:+ "hotel" +:+ post)
  ∧ (place !! "name" = None → is_Some (place !! "keyword") →
     SexPlacesNearBy.is_hotel place = Ok false)
  ∧ ((∀ name, dict_get_default place "name" (VStr "") ≠ VStr name) →
     SexPlacesNearBy.is_hotel place = Raise AttributeError)
  ∧ ((∃ name, dict_get_default place "name" (VStr "") = VStr name) →
     place !! "keyword" = None →
     SexPlacesNearBy.is_hotel place = Raise KeyError).
Proof.
  unfold SexPlacesNearBy.is_hotel, dict_item. split; [split|].
  - intros Hrun.
    destruct (dict_get_default place "name" (VStr "")) as [| | | |name| |];
      simpl in Hrun; try done.
    destruct (place !! "keyword") as [kw|]; simpl in Hrun; [|done].
    injection Hrun as Hrun. apply andb_true_iff in Hrun as [Hkw Hname].
    destruct kw; simpl in Hkw; try done. apply String.eqb_eq in Hkw as ->.
    split; [done|]. apply str_contains_spec in Hname as (pre & post & Hname).
    by exists name, pre, post.
  - intros (Hkw & name & pre & post & Hname & Hlower).
    rewrite Hname, Hkw. simpl. f_equal. apply str_contains_spec. by exists pre, post.
  - split; [|split].
    + intros Hname [kw Hkw]. unfold dict_get_default. rewrite Hname, Hkw. simpl.
      by rewrite andb_false_r.
    + intros Hname.
      destruct (dict_get_default place "name" (VStr "")) as [| | | |name| |];
        try done.
      by destruct (Hname name).
    + intros [name Hname] Hkw. by rewrite Hname, Hkw.
Qed.

Lemma is_hotel_motel_named_hotel_witness :
  let place : gmap string pyval :=
    <["name" := VStr "Grand HOTEL Central"]> (<["keyword" := VStr "motel"]> ∅) in
  SexPlacesNearBy.is_hotel place = Ok true
  ∧ SexPlacesNearBy.is_hotel (<["keyword" := VStr "motel"]> ∅) = Ok false.
Proof.
  intros place. split.
  - destruct (is_hotel_motel_named_hotel place) as [Hiff _]. apply Hiff.
    split; [by vm_compute|]. exists "Grand HOTEL Central", "grand ", " central".
    split; by vm_compute.
  - destruct (is_hotel_motel_named_hotel (<["keyword" := VStr "motel"]> ∅))
      as (_ & Hnoname & _).
    apply Hnoname; [by vm_compute|]. eexists. apply lookup_insert_eq.
Defined.

(** ** __init__ *)

(** X8: the constructor keeps the company as it is and reads the two
    coordinates from it; the key is the one given when it is not empty,
    the one of the configuration otherwise.  It raises only for a key
    that is neither given nor configured, and then for a company without
    latitude or longitude. *)
Theorem init_attributes (settings : gmap (string * string) string)
    (company : gmap string pyval) (key : option string) :
  let given := match key with Some k => negb (String.eqb k "") | None => false end in
  match SexPlacesNearBy.init settings company key with
  | Ok s =>
      SexPlacesNearBy.company s = company
      ∧ company !! "latitude" = Some (SexPlacesNearBy.latitude s)
      ∧ company !! "longitude" = Some (SexPlacesNearBy.longitude s)
      ∧ (if given then key = Some (SexPlacesNearBy.key s)
         else settings !! ("Google", "APIKey") = Some (SexPlacesNearBy.key s))
  | Raise e =>
      (e = ConfigError ∧ given = false ∧ settings !! ("Google", "APIKey") = None)
      ∨ (e = KeyError
         ∧ (company !! "latitude" = None ∨ company !! "longitude" = None))
  end.
Proof.
  unfold SexPlacesNearBy.init, SexPlacesNearBy.settings_get, dict_item.
  destruct key as [k|]; simpl.
  - destruct (String.eqb k "") eqn:Hk; simpl.
    + destruct (settings !! ("Google", "APIKey")); simpl; [|by left].
      destruct (company !! "latitude"); simpl; [|right; by auto].
      destruct (company !! "longitude"); simpl; [done|right; by auto].
    + destruct (company !! "latitude"); simpl; [|right; by auto].
      destruct (company !! "longitude"); simpl; [done|right; by auto].
  - destruct (settings !! ("Google", "APIKey")); simpl; [|by left].
    destruct (company !! "latitude"); simpl; [|right; by auto].
    destruct (company !! "longitude"); simpl; [done|right; by auto].
Qed.

(** ** Ties in [sorted] *)

Section Ties.
Implicit Types (a b m : pyfloat) (x : pyval * gmap string pyval)
  (l : list (pyval * gmap string pyval)).

Lemma float_ltb_not_leb a b : float_ltb a b = true → float_leb b a = false.
Proof.
  destruct a as [|[]|x], b as [|[]|y]; simpl; try done.
  destruct (Qcompare_spec x y), (Qcompare_spec y x); try done; lra.
Qed.

(** A pair of [keyed]: the key is the distance of the item, a float other
    than NaN. *)
Local Abbreviation keyed_item :=
  (λ x : pyval * gmap string pyval,
     x.1 = VFloat (SexPlacesNearBy.distance_of x.2)
     ∧ float_isnan (SexPlacesNearBy.distance_of x.2) = false).

Lemma keyed_item_float_key x : keyed_item x → float_key x.
Proof. intros [Hk Hn]. by eexists. Qed.

Lemma insert_by_keeps_ties m x l l' :
  keyed_item x → Forall keyed_item l →
  insert_by x l = Ok l' →
  List.filter (λ y, at_distance m y.2) l' = List.filter (λ y, at_distance m y.2) (x :: l).
Proof.
  intros [Hx Hxn] Hl. revert l'. induction Hl as [|y r [Hy Hyn] Hr IH]; intros l'.
  - simpl. by intros [= <-].
  - cbn [insert_by]. rewrite Hx, Hy.
    change (py_lt (VFloat (SexPlacesNearBy.distance_of y.2))
                  (VFloat (SexPlacesNearBy.distance_of x.2)))
      with (Ok (float_ltb (SexPlacesNearBy.distance_of y.2)
                          (SexPlacesNearBy.distance_of x.2))).
    cbn [rbind].
    destruct (float_ltb (SexPlacesNearBy.distance_of y.2)
                        (SexPlacesNearBy.distance_of x.2)) eqn:Hlt;
      [|by intros [= <-]].
    destruct (insert_by x r) as [r'|]; [|done]. cbn [rbind]. intros [= <-].
    cbn [List.filter]. rewrite (IH r' eq_refl). cbn [List.filter].
    destruct (at_distance m y.2) eqn:Pity; [|done].
    destruct (at_distance m x.2) eqn:Pitx; [|done].
    unfold at_distance in Pity, Pitx.
    apply andb_true_iff in Pity as [Hmy Hym].
    apply andb_true_iff in Pitx as [Hmx Hxm].
    pose proof (float_leb_trans _ _ _ Hxm Hmy) as Hxy.
    by rewrite (float_ltb_not_leb _ _ Hlt) in Hxy.
Qed.

Lemma sort_keyed_keeps_ties m l l' :
  Forall keyed_item l → sort_keyed l = Ok l' →
  List.filter (λ y, at_distance m y.2) l' = List.filter (λ y, at_distance m y.2) l.
Proof.
  intros Hl. revert l'. induction Hl as [|x r Hx Hr IH]; intros l'.
  - simpl. by intros [= <-].
  - cbn [sort_keyed].
    destruct (sort_keyed_sorted r) as (r' & Hsort & Hperm & _).
    { eapply Forall_impl; [exact Hr|]. apply keyed_item_float_key. }
    rewrite Hsort. cbn [rbind]. intros Hins.
    rewrite (insert_by_keeps_ties m x r' l' Hx); [|by rewrite Hperm|done].
    cbn [List.filter]. by rewrite (IH r' Hsort).
Qed.

Lemma filter_keyed_items m (l : list (gmap string pyval)) :
  map snd (List.filter (λ y, at_distance m y.2)
             (map (λ c, (VFloat (SexPlacesNearBy.distance_of c), c)) l))
  = List.filter (at_distance m) l.
Proof.
  induction l as [|c r IH]; [done|]. cbn [map List.filter]. simpl snd.
  destruct (at_distance m c); simpl; by rewrite IH.
Qed.

Lemma filter_map_snd m l :
  List.filter (at_distance m) (map snd l)
  = map snd (List.filter (λ y, at_distance m y.2) l).
Proof.
  induction l as [|x r IH]; [done|]. cbn [map List.filter].
  destruct (at_distance m x.2); simpl; by rewrite IH.
Qed.

(** X9: [sorted] is stable on the candidates.  When their distances are
    floats other than NaN, the candidates found at one same distance come
    out of the sort in the order they went in, which is the order of
    KEYWORDS: of two places equally near, the loop looks first at the one
    of the earlier keyword. *)
Theorem sorted_keeps_ties (candidates : list (gmap string pyval)) :
  Forall (λ c, ∃ m, c !! "distance" = Some (VFloat m) ∧ float_isnan m = false)
    candidates →
  ∃ ordered,
    sorted (λ c, dict_item c "distance") candidates = Ok ordered
    ∧ ∀ m, List.filter (at_distance m) ordered = List.filter (at_distance m) candidates.
Proof.
  intros Hl. unfold sorted. rewrite (keyed_distances candidates Hl). cbn [rbind].
  assert (Hitems : Forall keyed_item
            (map (λ c, (VFloat (SexPlacesNearBy.distance_of c), c)) candidates)).
  { apply Forall_map. eapply Forall_impl; [exact Hl|].
    intros c (m & Hm & Hnan). split; [done|]. simpl.
    unfold SexPlacesNearBy.distance_of. by rewrite Hm. }
  destruct (sort_keyed_sorted
              (map (λ c, (VFloat (SexPlacesNearBy.distance_of c), c)) candidates))
    as (l' & Hsort & _ & _).
  { eapply Forall_impl; [exact Hitems|]. apply keyed_item_float_key. }
  rewrite Hsort. cbn [rbind]. eexists. split; [done|]. intros m.
  rewrite filter_map_snd, (sort_keyed_keeps_ties m _ l' Hitems Hsort).
  apply filter_keyed_items.
Qed.
End Ties.

Lemma sorted_keeps_ties_witness :
  let near (keyword : string) (metres : Q) : gmap string pyval :=
    <["distance" := VFloat (FFin metres)]> (<["keyword" := VStr keyword]> ∅) in
  let candidates := [near "motel" 40%Q; near "night club" 12%Q; near "sex shop" 40%Q] in
  Forall (λ c, ∃ m, c !! "distance" = Some (VFloat m) ∧ float_isnan m = false)
    candidates
  ∧ ∃ ordered,
      sorted (λ x, dict_item x "distance") candidates = Ok ordered
      ∧ List.filter (at_distance (FFin 40)) ordered
        = [near "motel" 40%Q; near "sex shop" 40%Q].
Proof.
  intros near candidates.
  assert (Hl : Forall (λ c, ∃ m, c !! "distance" = Some (VFloat m)
                                 ∧ float_isnan m = false) candidates).
  { repeat constructor; eexists; (split; [apply lookup_insert_eq|done]). }
  split; [exact Hl|].
  destruct (sorted_keeps_ties candidates Hl) as (ordered & Hsort & Hties).
  exists ordered. split; [exact Hsort|]. rewrite Hties. by vm_compute.
Defined.

(** ** The output file *)

Section OutputFile.
Implicit Types (w : world) (place : option (gmap string pyval)).

Lemma appends_rows_refl (path : string) (n : nat) w : appends_rows path n w w.
Proof.
  split; [done|]. exists []. rewrite app_nil_r.
  split; [done|]. split; [simpl; lia|constructor].
Qed.

Lemma appends_rows_trans (path : string) (n k : nat) w w1 w2 :
  appends_rows path n w w1 → appends_rows path k w1 w2 →
  appends_rows path (n + k) w w2.
Proof.
  intros (Hother & rows & Hrows & Hlen & Hall) (Hother' & rows' & Hrows' & Hlen' & Hall').
  split.
  - intros other Hne. by rewrite Hother', Hother.
  - exists (rows ++ rows'). split; [by rewrite Hrows', Hrows, app_assoc|].
    split; [rewrite length_app; lia|by apply Forall_app].
Qed.

Lemma appends_rows_weaken (path : string) (n k : nat) w w' :
  (n ≤ k)%nat → appends_rows path n w w' → appends_rows path k w w'.
Proof.
  intros Hnk (Hother & rows & Hrows & Hlen & Hall).
  split; [done|]. exists rows. repeat split; try done. lia.
Qed.

Lemma appends_rows_same_files (path : string) (n : nat) w w' :
  files w' = files w → appends_rows path n w w'.
Proof.
  intros Hfiles. split; [by rewrite Hfiles|]. exists []. rewrite Hfiles, app_nil_r.
  split; [done|]. split; [simpl; lia|constructor].
Qed.

(** What [write_to_csv] does when it is called without [headers], as
    [main] calls it. *)
Lemma write_to_csv_plain (path : string) place w :
  fst (write_to_csv path place ∅ w) = Ok tt
  ∧ appends_rows path 1 w (snd (write_to_csv path place ∅ w))
  ∧ requests (snd (write_to_csv path place ∅ w)) = requests w
  ∧ stdout (snd (write_to_csv path place ∅ w)) = stdout w ++ [Writing place].
Proof.
  unfold write_to_csv. unfold dict_get_default. rewrite lookup_empty.
  cbn [default]. change (truthy (VBool false)) with false.
  cbn [negb]. rewrite andb_true_r.
  destruct (place_given place) eqn:Hgiven; cbn [negb].
  - destruct place as [d|]; [|done]. unfold place_given in Hgiven.
    rewrite Hgiven, writerow_filtered. unfold appends_rows. step_monad.
    split; [done|]. split; [|done]. split.
    + intros other Hne. by rewrite lookup_insert_ne.
    + eexists. rewrite lookup_insert_eq. simpl. split; [done|].
      split; [simpl; lia|]. repeat constructor. by eexists.
  - step_monad. split; [done|]. split; [|done]. by apply appends_rows_same_files.
Qed.

Lemma write_to_csv_none (path : string) w :
  write_to_csv path None ∅ w
  = (Ok tt, {| stdout := stdout w ++ [Writing None];
               requests := requests w;
               files := files w |}).
Proof. reflexivity. Qed.

End OutputFile.

(** ** main *)

Lemma main_cons (float_of_string : string → option pyfloat)
    (vincenty : pyval * pyval → pyfloat * pyfloat → result pyfloat)
    (http : request → option response) (settings : gmap (string * string) string)
    (DATE : string) (company : gmap string pyval) (rest : list (gmap string pyval)) :
  main float_of_string vincenty http settings DATE (company :: rest)
  = (let! sex_places := lift (SexPlacesNearBy.init settings company None) in
     let! closest :=
       SexPlacesNearBy.get_closest float_of_string vincenty http sex_places in
     run! write_to_csv (OUTPUT DATE) closest ∅ in
     main float_of_string vincenty http settings DATE rest).
Proof. reflexivity. Qed.

Section MainLoop.
Variable float_of_string : string → option pyfloat.
Variable vincenty : pyval * pyval → pyfloat * pyfloat → result pyfloat.
Variable http : request → option response.
Variable settings : gmap (string * string) string.
Variable DATE : string.

Local Abbreviation main := (main float_of_string vincenty http settings DATE).
Local Abbreviation get_closest :=
  (SexPlacesNearBy.get_closest float_of_string vincenty http).
Local Abbreviation init := (SexPlacesNearBy.init settings).

Implicit Types (w : world) (companies : list (gmap string pyval)).

(** One turn of the loop of [main]. *)
Lemma main_step (company : gmap string pyval) companies w :
  main (company :: companies) w
  = match init company None with
    | Ok sex_places =>
        match get_closest sex_places w with
        | (Ok closest, w1) =>
            match write_to_csv (OUTPUT DATE) closest ∅ w1 with
            | (Ok _, w2) => main companies w2
            | (Raise e, w2) => (Raise e, w2)
            end
        | (Raise e, w1) => (Raise e, w1)
        end
    | Raise e => (Raise e, w)
    end.
Proof.
  rewrite main_cons. unfold bind at 1, lift.
  destruct (init company None) as [sex_places|e]; [|done].
  unfold bind at 1. destruct (get_closest sex_places w) as [[closest|e] w1]; [|done].
  unfold bind at 1. by destruct (write_to_csv (OUTPUT DATE) closest ∅ w1) as [[[]|e] w2].
Qed.

(** X11: whatever the companies and the answers of the API, [main] changes
    no file but the output file of the day, to which it only appends: at
    most one row for each company, each a data row of eleven cells, never
    a header.  It sends at most twenty-four requests for each company. *)
Theorem main_appends_rows companies w :
  let w' := snd (main companies w) in
  (∀ other, other ≠ OUTPUT DATE → files w' !! other = files w !! other)
  ∧ (∃ rows,
       default [] (files w' !! OUTPUT DATE)
       = default [] (files w !! OUTPUT DATE) ++ rows
       ∧ (length rows ≤ length companies)%nat
       ∧ Forall (λ r, ∃ cells, r = DataRow cells ∧ length cells = 11) rows)
  ∧ ∃ new, requests w' = requests w ++ new
           ∧ (length new ≤ 24 * length companies)%nat.
Proof.
  intros w'. subst w'.
  assert (Hall : appends_rows (OUTPUT DATE) (length companies) w (snd (main companies w))
                 ∧ ∃ new, requests (snd (main companies w)) = requests w ++ new
                          ∧ (length new ≤ 24 * length companies)%nat).
  { revert w. induction companies as [|company rest IH]; intros w.
    - split; [apply appends_rows_refl|]. exists []. by rewrite app_nil_r.
    - rewrite main_step.
      assert (Hhere : appends_rows (OUTPUT DATE) (length (company :: rest)) w w
                      ∧ ∃ new, requests w = requests w ++ new
                               ∧ (length new ≤ 24 * length (company :: rest))%nat).
      { split; [apply appends_rows_refl|]. exists []. rewrite app_nil_r.
        split; [done|simpl; lia]. }
      destruct (init company None) as [s|e]; [|exact Hhere].
      destruct (get_closest_runs float_of_string vincenty http s w)
        as [(_ & Hfiles & new & Hreq & Hlen & _) _].
      destruct (get_closest s w) as [[closest|e] w1]; simpl in Hfiles, Hreq.
      + destruct (write_to_csv_plain (OUTPUT DATE) closest w1)
          as (Hok & Hrows & Hreq' & _).
        destruct (write_to_csv (OUTPUT DATE) closest ∅ w1) as [[[]|e] w2];
          simpl in Hok, Hrows, Hreq'; [|done].
        destruct (IH w2) as [Hrest (new' & Hreq'' & Hlen')]. split.
        * change (length (company :: rest)) with (0 + (1 + length rest))%nat.
          eapply appends_rows_trans; [by apply appends_rows_same_files|].
          by eapply appends_rows_trans.
        * exists (new ++ new'). rewrite Hreq'', Hreq', Hreq, app_assoc.
          split; [done|]. rewrite length_app. simpl. lia.
      + split; [by apply appends_rows_same_files|].
        exists new. split; [done|]. simpl. lia. }
  destruct Hall as [[Hother Hrows] Hreq]. done.
Qed.

(** X12: a batch of companies without geolocation, each with a cnpj, a
    longitude and a latitude that [float] refuses with a ValueError or
    reads as NaN, runs to its end: two lines are printed for each company,
    nothing is sent and no file is opened. *)
Theorem main_without_geolocation companies w (api_key : string) :
  settings !! ("Google", "APIKey") = Some api_key →
  Forall (λ company,
            ∃ lat, company !! "latitude" = Some lat
                   ∧ SexPlacesNearBy.unparseable_or_nan float_of_string lat
                   ∧ is_Some (company !! "longitude")
                   ∧ is_Some (company !! "cnpj")) companies →
  main companies w
  = (Ok tt,
     {| stdout := stdout w ++
          concat (map (λ company,
                         [ NoGeolocation (get_name company) (dict_get company "cnpj");
                           Writing None ]) companies);
        requests := requests w;
        files := files w |}).
Proof.
  intros Hkey Hall. revert w.
  induction Hall as [|company rest (lat & Hlat & Hbad & [lon Hlon] & [cnpj Hcnpj]) _ IH];
    intros w.
  - simpl. rewrite app_nil_r. by destruct w.
  - rewrite main_step.
    unfold SexPlacesNearBy.init, SexPlacesNearBy.settings_get, dict_item.
    rewrite Hkey, Hlat, Hlon. cbn [rbind].
    set (s := {| SexPlacesNearBy.company := company;
                 SexPlacesNearBy.key := api_key;
                 SexPlacesNearBy.latitude := lat;
                 SexPlacesNearBy.longitude := lon |}).
    assert (Hrun : get_closest s w
              = (Ok None, {| stdout := stdout w ++ [NoGeolocation (get_name company) cnpj];
                             requests := requests w;
                             files := files w |})).
    { unfold SexPlacesNearBy.get_closest, bind at 1.
      by rewrite (is_valid_false float_of_string s w cnpj (or_introl Hbad) Hcnpj). }
    rewrite Hrun. cbv beta iota. rewrite write_to_csv_none. cbv beta iota.
    rewrite IH. simpl. unfold dict_get. rewrite Hcnpj. simpl.
    by rewrite <- !app_assoc.
Qed.
End MainLoop.

Lemma main_without_geolocation_witness :
  let company := <["latitude" := VStr ""]> Sample.company in
  Sample.settings !! ("Google", "APIKey") = Some "secret"
  ∧ main Sample.float_of_string Sample.vincenty Sample.http_hotel_and_shop
      Sample.settings "2023-01-05" [company; company] empty_world
    = (Ok tt,
       {| stdout := [ NoGeolocation (VStr "Acme") (VStr "12.345.678/0001-90");
                      Writing None;
                      NoGeolocation (VStr "Acme") (VStr "12.345.678/0001-90");
                      Writing None ];
          requests := [];
          files := ∅ |}).
Proof.
  intros company.
  assert (Hkey : Sample.settings !! ("Google", "APIKey") = Some "secret")
    by (by vm_compute).
  split; [exact Hkey|].
  rewrite (main_without_geolocation Sample.float_of_string Sample.vincenty
             Sample.http_hotel_and_shop Sample.settings "2023-01-05"
             [company; company] empty_world "secret" Hkey).
  - by vm_compute.
  - repeat constructor; exists (VStr "");
      (split; [by vm_compute|]); (split; [by left|]);
      split; eexists; by vm_compute.
Defined.

(** ** The dates the locator tries *)

Section DatesTried.
Implicit Types (x y : string) (l : list string).

(** A later date stands before an earlier one. *)
Local Abbreviation later := (λ a b : string, String.ltb b a = true).

Lemma insert_desc_later x l :
  x ∉ l → StronglySorted later l → StronglySorted later (insert_desc x l).
Proof.
  intros Hx Hs. induction Hs as [|y r Hs IH Hy]; simpl; [repeat constructor|].
  apply not_elem_of_cons in Hx as [Hxy Hxr].
  destruct (String.ltb x y) eqn:Hlt.
  - constructor; [by apply IH|]. apply Forall_forall. intros z Hz.
    apply (insert_desc_elem_of (λ _, true)) in Hz as [->|Hz]; [done|].
    rewrite Forall_forall in Hy. by apply Hy.
  - assert (Hyx : String.ltb y x = true).
    { destruct (String.ltb y x) eqn:Hyx; [done|].
      by destruct (Hxy (string_ltb_total x y Hlt Hyx)). }
    constructor; [by constructor|]. constructor; [done|].
    apply Forall_forall. intros z Hz. rewrite Forall_forall in Hy.
    exact (string_ltb_trans z y x (Hy z Hz) Hyx).
Qed.

Lemma sorted_set_reverse_later l : StronglySorted later (sorted_set_reverse l).
Proof.
  unfold sorted_set_reverse. pose proof (NoDup_remove_dups l) as Hnodup.
  induction Hnodup as [|x r Hx Hnodup IH]; simpl; [constructor|].
  apply insert_desc_later; [|done]. intros Hin. apply Hx. clear -Hin.
  induction r as [|y r IH]; simpl in Hin; [done|].
  apply (insert_desc_elem_of (λ _, true)) in Hin as [->|Hin]; [left|right; by apply IH].
Qed.

(** Two lists in strictly descending order that hold the same strings are
    one list. *)
Lemma later_sorted_unique (l1 l2 : list string) :
  StronglySorted later l1 → StronglySorted later l2 →
  (∀ x, x ∈ l1 ↔ x ∈ l2) → l1 = l2.
Proof.
  intros Hs1. revert l2. induction Hs1 as [|a r1 Hs1 IH Ha]; intros l2 Hs2 Hsame.
  - destruct l2 as [|b r2]; [done|].
    assert (Hin : b ∈ @nil string) by (apply Hsame; left).
    by apply elem_of_nil in Hin.
  - destruct Hs2 as [|b r2 Hs2 Hb].
    { assert (Hin : a ∈ @nil string) by (apply Hsame; left).
      by apply elem_of_nil in Hin. }
    rewrite Forall_forall in Ha, Hb.
    assert (Hab : a = b).
    { assert (Hin : a ∈ b :: r2) by (apply Hsame; left).
      assert (Hin' : b ∈ a :: r1) by (apply Hsame; left).
      apply elem_of_cons in Hin as [Hin|Hin]; [done|].
      apply elem_of_cons in Hin' as [Hin'|Hin']; [done|].
      pose proof (Hb a Hin) as H1. pose proof (Ha b Hin') as H2. simpl in H1, H2.
      by rewrite (string_ltb_asym _ _ H1) in H2. }
    subst b. f_equal. apply IH; [done|]. intros x. split; intros Hx.
    + assert (Hin : x ∈ a :: r2) by (apply Hsame; by right).
      apply elem_of_cons in Hin as [->|Hin]; [|done].
      pose proof (Ha a Hx) as Hlt. simpl in Hlt. by rewrite string_ltb_irrefl in Hlt.
    + assert (Hin : x ∈ a :: r1) by (apply Hsame; by right).
      apply elem_of_cons in Hin as [->|Hin]; [|done].
      pose proof (Hb a Hx) as Hlt. simpl in Hlt. by rewrite string_ltb_irrefl in Hlt.
Qed.

(** X13: [sorted(set(dates), reverse=True)] holds the dates collected and
    no other string, each once, in strictly descending order: the locator
    tries the most recent date first and no date twice. *)
Theorem sorted_set_reverse_descending l :
  (∀ x, x ∈ sorted_set_reverse l ↔ x ∈ l)
  ∧ NoDup (sorted_set_reverse l)
  ∧ StronglySorted (λ a b, String.ltb b a = true) (sorted_set_reverse l).
Proof.
  split; [intros x; apply (sorted_set_reverse_elem_of (λ _, true))|].
  split; [|apply sorted_set_reverse_later].
  pose proof (sorted_set_reverse_later l) as Hs.
  induction Hs as [|a r Hs IH Ha]; constructor; [|done].
  intros Hin. rewrite Forall_forall in Ha. specialize (Ha a Hin). simpl in Ha.
  by rewrite string_ltb_irrefl in Ha.
Qed.

Lemma match_here_length (pattern : list (ascii → bool)) (s m : string) :
  match_here pattern s = Some m → String.length m = length pattern.
Proof.
  revert s m. induction pattern as [|p pattern' IH]; intros s m; simpl.
  - by intros [= <-].
  - destruct s as [|c r]; [done|]. destruct (p c); [|done].
    destruct (match_here pattern' r) as [m'|] eqn:Hm; [|done].
    intros [= <-]. simpl. by rewrite (IH r m' Hm).
Qed.

(** The dates collected: the first match of each file name that has one. *)
Lemma first_matches_spec (pattern : list (ascii → bool)) (d : string) l :
  d ∈ first_matches (map (findall pattern) l)
  ↔ ∃ f others, f ∈ l ∧ findall pattern f = d :: others.
Proof.
  split.
  - induction l as [|f r IH]; simpl; [by intros ?%elem_of_nil|].
    destruct (findall pattern f) as [|m ms] eqn:Hf.
    + intros Hin. destruct (IH Hin) as (g & others & Hg & Hd).
      exists g, others. split; [by right|done].
    + intros [->|Hin]%elem_of_cons.
      * exists f, ms. split; [left|done].
      * destruct (IH Hin) as (g & others & Hg & Hd).
        exists g, others. split; [by right|done].
  - intros (f & others & Hf & Hd). by eapply first_matches_elem_of.
Qed.

Variable isfile : string → bool.


(** X15: the answer of the locator depends on the names listed, not on the
    order [os.listdir] gives them in nor on repetitions: two listings with
    the same names give the same path. *)
Theorem find_newest_file_any_order (listdir listdir' : list string) (name : string) :
  (∀ f, f ∈ listdir ↔ f ∈ listdir') →
  find_newest_file listdir isfile name = find_newest_file listdir' isfile name.
Proof.
  intros Hsame. unfold find_newest_file. f_equal.
  apply later_sorted_unique; [apply sorted_set_reverse_later..|].
  intros d. rewrite !(sorted_set_reverse_elem_of (λ _, true)), !first_matches_spec.
  split; intros (f & others & Hf & Hd); exists f, others; (split; [by apply Hsame|done]).
Qed.
End DatesTried.

Lemma find_newest_file_any_order_witness :
  (∀ f, f ∈ Sample.listdir ↔ f ∈ reverse Sample.listdir ++ ["2023-01-01-companies.xz"])
  ∧ find_newest_file Sample.listdir Sample.isfile "companies"
    = find_newest_file (reverse Sample.listdir ++ ["2023-01-01-companies.xz"])
        Sample.isfile "companies".
Proof.
  assert (Hsame : ∀ f, f ∈ Sample.listdir
                       ↔ f ∈ reverse Sample.listdir ++ ["2023-01-01-companies.xz"]).
  { intros f. unfold Sample.listdir. cbn [reverse rev_append app]. set_solver. }
  split; [exact Hsame|].
  by apply (find_newest_file_any_order Sample.isfile).
Defined.

(** ** Answers the client does not expect *)

Section Malformed.
Variable float_of_string : string → option pyfloat.
Variable vincenty : pyval * pyval → pyfloat * pyfloat → result pyfloat.
Variable http : request → option response.

Import SexPlacesNearBy.

Local Abbreviation parse := (SexPlacesNearBy.parse float_of_string vincenty).
Local Abbreviation load_details := (SexPlacesNearBy.load_details http).
Local Abbreviation py_float := (SexPlacesNearBy.py_float float_of_string).

Implicit Types (s : self) (w : world).


(** X17: the cnpj of the company has to be a string.  With a cnpj of
    another type (a number, or none), an 'OK' answer with good coordinates
    makes [parse] raise TypeError, after the distance was computed. *)
Theorem parse_cnpj_not_a_string s (resp : response) (d place : gmap string pyval)
    (lat lng : pyval) (la lo m : pyfloat) w :
  body resp = Some (VDict d) →
  d !! "status" = Some (VStr "OK") →
  first_result_at d place lat lng →
  py_float lat = Ok la →
  py_float lng = Ok lo →
  vincenty (latitude s, longitude s) (la, lo) = Ok m →
  (∀ c, dict_get (company s) "cnpj" ≠ VStr c) →
  parse s resp w = (Raise TypeError, w).
Proof.
  intros Hbody Hstatus Hfirst Hla Hlo Hm Hcnpj.
  rewrite (parse_ok_steps float_of_string vincenty s resp d place lat lng w
             Hbody Hstatus Hfirst).
  step_monad. rewrite Hla, Hlo, Hm.
  destruct (dict_get (company s) "cnpj") as [| | | |c| |] eqn:Hc; simpl; try done.
  by destruct (Hcnpj c).
Qed.
End Malformed.


Lemma parse_cnpj_not_a_string_witness :
  let s := {| SexPlacesNearBy.company := <["cnpj" := VInt 12345678000190]> Sample.company;
              SexPlacesNearBy.key := "secret";
              SexPlacesNearBy.latitude := VFloat (FFin (-23));
              SexPlacesNearBy.longitude := VFloat (FFin (-46)) |} in
  (∀ c, dict_get (SexPlacesNearBy.company s) "cnpj" ≠ VStr c)
  ∧ SexPlacesNearBy.parse Sample.float_of_string Sample.vincenty s
      {| url := Sample.search_url "sex shop";
         body := Some (Sample.one_result "shop-1" (-23)) |} empty_world
    = (Raise TypeError, empty_world).
Proof.
  intros s.
  assert (Hcnpj : ∀ c, dict_get (SexPlacesNearBy.company s) "cnpj" ≠ VStr c).
  { intros c. by vm_compute. }
  split; [exact Hcnpj|].
  eapply (parse_cnpj_not_a_string Sample.float_of_string Sample.vincenty s
            _ _ _ (VFloat (FFin (-23))) (VFloat (FFin (-46))));
    [reflexivity|by vm_compute| |reflexivity|reflexivity|reflexivity|exact Hcnpj].
  eexists _, _, _. split; [by vm_compute|]. split; [by vm_compute|].
  split; [by vm_compute|]. split; reflexivity.
Defined.
